(** * py2neo primitives: property casting, PropertySet, GraphView algebra

    A shallow embedding of [py2neo/primitives.py] and the verification of
    its specification.  Python values are an inductive type, exceptions are
    an explicit result type, the mutable [PropertySet] (a [dict] subclass)
    is an insertion-ordered association list threaded through a small
    state-and-exception monad, and the frozen sets of [EntitySetView] are
    stdpp's [gset].  The classes are those of Python 3: one integer class,
    one string class, [bool] a subclass of [int]. *)

From Stdlib Require Import ZArith Floats.SpecFloat.
From stdpp Require Import gmap strings list.

Local Open Scope Z_scope.

(** ** Python values *)

(** The classes that [cast_property] tells apart with [isinstance]. *)
Inductive pytype :=
| TNoneType | TBool | TInt | TFloat | TStr
| TList | TTuple | TSet | TFrozenset
| TDate | TTime | TDatetime | TDecimal | TComplex
| TObject.

(** The four collection classes accepted by the caster; a set is given by
    the order in which iterating over it yields its members. *)
Inductive seqkind := KList | KTuple | KSet | KFrozenset.

(** [datetime.date], [datetime.time] and [datetime.datetime] objects. *)
Inductive temporal :=
| Date (year month day : Z)
| Time (hour minute second microsecond : Z)
| Datetime (year month day hour minute second microsecond : Z).

(** [decimal.Decimal]: sign, coefficient and exponent, or a special value. *)
Inductive Decimal :=
| DecFinite (negative : bool) (coefficient : N) (exponent : Z)
| DecInfinity (negative : bool)
| DecNaN.

#[local] Unset Elimination Schemes.
Inductive pyval :=
| VNone
| VBool (b : bool)
| VFloat (x : spec_float)
| VInt (i : Z)
| VStr (s : string)
| VSeq (kind : seqkind) (items : list pyval)
| VTemporal (t : temporal)
| VDecimal (d : Decimal)
| VComplex (real imag : spec_float)
| VObject (class_name : string).
#[local] Set Elimination Schemes.

Definition list_ (items : list pyval) : pyval := VSeq KList items.
Definition tuple (items : list pyval) : pyval := VSeq KTuple items.

(** [type(value)] *)
Definition type (value : pyval) : pytype :=
  match value with
  | VNone => TNoneType
  | VBool _ => TBool
  | VFloat _ => TFloat
  | VInt _ => TInt
  | VStr _ => TStr
  | VSeq KList _ => TList
  | VSeq KTuple _ => TTuple
  | VSeq KSet _ => TSet
  | VSeq KFrozenset _ => TFrozenset
  | VTemporal (Date _ _ _) => TDate
  | VTemporal (Time _ _ _ _) => TTime
  | VTemporal (Datetime _ _ _ _ _ _ _) => TDatetime
  | VDecimal _ => TDecimal
  | VComplex _ _ => TComplex
  | VObject _ => TObject
  end.

Definition pytype_eqb (a b : pytype) : bool :=
  match a, b with
  | TNoneType, TNoneType | TBool, TBool | TInt, TInt | TFloat, TFloat
  | TStr, TStr | TList, TList | TTuple, TTuple | TSet, TSet
  | TFrozenset, TFrozenset | TDate, TDate | TTime, TTime
  | TDatetime, TDatetime | TDecimal, TDecimal | TComplex, TComplex
  | TObject, TObject => true
  | _, _ => false
  end.

(** [issubclass(a, b)]: besides a class itself, [bool] derives from [int]
    and [datetime] from [date]. *)
Definition issubclass (a b : pytype) : bool :=
  pytype_eqb a b ||
  match a, b with
  | TBool, TInt => true
  | TDatetime, TDate => true
  | _, _ => false
  end.

(** [isinstance(value, cls)] *)
Definition isinstance (value : pyval) (cls : pytype) : bool :=
  issubclass (type value) cls.

(** ** Exceptions *)

Inductive message :=
| Integer_value_out_of_range
| Lists_cannot_contain_nested_collections
| List_property_items_must_be_of_similar_types
| Invalid_property_type
| unsupported_operand_types_for_xor
| object_is_not_iterable.

Inductive exception :=
| ValueError (msg : message)
| TypeError (msg : message)
| KeyError (key : string)
| IndexError.

(** The specification's names for the four errors of the caster. *)
Definition OutOfRange : exception := ValueError Integer_value_out_of_range.
Definition NestedListNotAllowed : exception :=
  ValueError Lists_cannot_contain_nested_collections.
Definition MixedListType : exception :=
  TypeError List_property_items_must_be_of_similar_types.
Definition InvalidPropertyType : exception := TypeError Invalid_property_type.

Inductive result (A : Type) :=
| OK (a : A)
| Raise (e : exception).
Arguments OK {A} a.
Arguments Raise {A} e.

(** ** The runtime the module runs on

    [ustr] comes from [py2neo.util], [isoformat], [float], [hash] and [==]
    from Python itself; none of them is defined in [primitives.py]. *)
Class Runtime := {
  (** [py2neo.util.ustr]: convert a string to a unicode string *)
  ustr : string -> string;
  (** [value.isoformat()] of a date, time or datetime *)
  isoformat : temporal -> string;
  (** [float(value)] of a [Decimal] *)
  float : Decimal -> spec_float;
  (** [hash(obj)] *)
  hash : pyval -> Z;
  (** [a == b] on property values *)
  py_eq : pyval -> pyval -> bool
}.

(** ** cast_property *)

Definition JAVA_INTEGER_MIN_VALUE : Z := - 2 ^ 63.
Definition JAVA_INTEGER_MAX_VALUE : Z := 2 ^ 63 - 1.

Section CastItems.
Variable cast : pyval -> result pyval.

(** The [for item in value] loop of the collection branch; [list_type]
    and [list_value] are the loop's two variables. *)
Fixpoint cast_items (value : list pyval) (list_type : option pytype)
    (list_value : list pyval) : result pyval :=
  match value with
  | [] => OK (list_ list_value)
  | item :: value =>
      match cast item with
      | Raise e => Raise e
      | OK item =>
          match list_type with
          | None =>
              let list_type := type item in
              if pytype_eqb list_type TList
              then Raise NestedListNotAllowed
              else cast_items value (Some list_type) (list_value ++ [item])
          | Some cls =>
              if negb (isinstance item cls)
              then Raise MixedListType
              else cast_items value list_type (list_value ++ [item])
          end
      end
  end.
End CastItems.

Section Caster.
Context {RT : Runtime}.

Fixpoint cast_property (value : pyval) : result pyval :=
  match value with
  | VBool _ | VFloat _ => OK value
  | VInt i =>
      if (JAVA_INTEGER_MIN_VALUE <=? i) && (i <=? JAVA_INTEGER_MAX_VALUE)
      then OK value
      else Raise OutOfRange
  | VStr s => OK (VStr (ustr s))
  | VSeq _ items => cast_items cast_property items None []
  | VTemporal t => OK (VStr (isoformat t))
  | VDecimal d => OK (VFloat (float d))
  | VComplex real imag => OK (list_ [VFloat real; VFloat imag])
  | VNone | VObject _ => Raise InvalidPropertyType
  end.
End Caster.

(** ** What Neo4j supports

    The values that the caster is meant to hand out: a boolean, a float,
    an integer of the Java range, a string, or a list of such values in
    which every item is an instance of the class of the first one. *)
Definition is_scalar (value : pyval) : bool :=
  match value with
  | VBool _ | VFloat _ | VStr _ => true
  | VInt i => (JAVA_INTEGER_MIN_VALUE <=? i) && (i <=? JAVA_INTEGER_MAX_VALUE)
  | _ => false
  end.

Definition similar (items : list pyval) : bool :=
  match items with
  | [] => true
  | first :: rest => forallb (fun item => isinstance item (type first)) rest
  end.

Definition is_supported (value : pyval) : bool :=
  is_scalar value ||
  match value with
  | VSeq KList items => forallb is_scalar items && similar items
  | _ => false
  end.

(** What the loop keeps true of its two variables. *)
Definition loop_state (list_type : option pytype) (list_value : list pyval)
    : Prop :=
  Forall (fun c => is_scalar c = true) list_value
  /\ match list_type with
     | None => list_value = []
     | Some cls =>
         cls <> TList
         /\ exists first rest,
              list_value = first :: rest
              /\ type first = cls
              /\ Forall (fun c => isinstance c cls = true) rest
     end.

(** ** Methods that mutate [self] and may raise

    A method runs on the state of [self] and gives back the state it leaves
    behind together with its return value or the exception it raised: an
    exception does not undo the mutations made before it. *)
Definition method (S A : Type) : Type := S -> result A * S.

Definition ret {S A} (a : A) : method S A := fun self => (OK a, self).
Definition raise {S A} (e : exception) : method S A :=
  fun self => (Raise e, self).
Definition bind {S A B} (m : method S A) (k : A -> method S B) : method S B :=
  fun self =>
    match m self with
    | (OK a, self) => k a self
    | (Raise e, self) => (Raise e, self)
    end.
(** Evaluate an expression that does not touch [self]. *)
Definition eval {S A} (r : result A) : method S A := fun self => (r, self).
(** [try: m except KeyError: handler] *)
Definition try_except_KeyError {S A} (m handler : method S A) : method S A :=
  fun self =>
    match m self with
    | (Raise (KeyError _), self) => handler self
    | outcome => outcome
    end.

Declare Scope method_scope.
Delimit Scope method_scope with method.
Notation "x <~ m ;; k" := (bind m (fun x => k))
  (at level 100, m at next level, right associativity) : method_scope.
Notation "m ;;; k" := (bind m (fun _ => k))
  (at level 100, right associativity) : method_scope.

(** [for x in xs: body(x)] *)
Fixpoint for_each {S A} (xs : list A) (body : A -> method S unit)
    : method S unit :=
  match xs with
  | [] => ret tt
  | x :: xs => bind (body x) (fun _ => for_each xs body)
  end.

(** ** The built-in dict

    Keys in insertion order, each key once.  Assigning to a key that is
    present keeps its position; a new key goes to the end. *)
Module dict.
Definition t : Type := list (string * pyval).

Fixpoint get (self : t) (key : string) : option pyval :=
  match self with
  | [] => None
  | (k, v) :: self => if String.eqb k key then Some v else get self key
  end.

Definition __contains__ (self : t) (key : string) : bool :=
  match get self key with Some _ => true | None => false end.

Fixpoint store (key : string) (value : pyval) (self : t) : t :=
  match self with
  | [] => [(key, value)]
  | (k, v) :: self =>
      if String.eqb k key then (k, value) :: self
      else (k, v) :: store key value self
  end.

Definition remove (key : string) (self : t) : t :=
  List.filter (fun kv => negb (String.eqb (fst kv) key)) self.

Definition __setitem__ (key : string) (value : pyval) : method t unit :=
  fun self => (OK tt, store key value self).

Definition __delitem__ (key : string) : method t unit :=
  fun self =>
    if __contains__ self key then (OK tt, remove key self)
    else (Raise (KeyError key), self).

Definition setdefault (key : string) (default : pyval) : method t pyval :=
  fun self =>
    match get self key with
    | Some v => (OK v, self)
    | None => (OK default, store key default self)
    end.

Definition clear : method t unit := fun _ => (OK tt, []).

Definition items (self : t) : list (string * pyval) := self.

(** A dict binds each key once. *)
Definition well_formed (self : t) : Prop := NoDup (map fst self).

(** [dict(iterable, kwargs)]: the pairs, then the keyword arguments. *)
Definition new (iterable kwargs : list (string * pyval)) : t :=
  fold_left (fun d kv => store (fst kv) (snd kv) d) (iterable ++ kwargs) [].

(** [dict.__eq__]: as many keys, and every key of [self] bound in
    [other] to an equal value. *)
Definition __eq__ {RT : Runtime} (self other : t) : bool :=
  (length self =? length other)%nat &&
  forallb (fun kv =>
             match get other (fst kv) with
             | Some w => py_eq (snd kv) w
             | None => false
             end) self.
End dict.

(** ** PropertySet *)

(** [value ^= h] for an integer [h]: defined when [value] is an [int] or a
    [bool], a [TypeError] for every other property value. *)
Definition ixor (value : pyval) (h : Z) : result pyval :=
  match value with
  | VInt i => OK (VInt (Z.lxor i h))
  | VBool b => OK (VInt (Z.lxor (Z.b2z b) h))
  | _ => Raise (TypeError unsupported_operand_types_for_xor)
  end.

Module PropertySet.
(** A dict subclass that equates None with a non-existent key. *)
Definition t : Type := dict.t.

(** What [__eq__] may be compared with: another PropertySet, or anything
    else that [PropertySet(other)] accepts ([None] or key/value pairs). *)
Inductive operand :=
| a_PropertySet (other : t)
| a_mapping (other : option (list (string * pyval))).

(** [iterable or {}] *)
Definition or_empty (iterable : option (list (string * pyval)))
    : list (string * pyval) :=
  match iterable with
  | Some pairs => pairs
  | None => []
  end.

Section Methods.
Context {RT : Runtime}.
Local Open Scope method_scope.

Definition __getitem__ (key : string) : method t pyval :=
  fun self =>
    (OK (match dict.get self key with Some v => v | None => VNone end),
     self).

Definition __setitem__ (key : string) (value : pyval) : method t unit :=
  match value with
  | VNone => try_except_KeyError (dict.__delitem__ key) (ret tt)
  | _ =>
      canonical <~ eval (cast_property value) ;;
      dict.__setitem__ key canonical
  end.

Definition update (iterable : option (list (string * pyval)))
    (kwargs : list (string * pyval)) : method t unit :=
  for_each (dict.items (dict.new (or_empty iterable) kwargs))
    (fun kv => __setitem__ (fst kv) (snd kv)).

Definition replace (iterable : option (list (string * pyval)))
    (kwargs : list (string * pyval)) : method t unit :=
  dict.clear ;;; update iterable kwargs.

Definition setdefault (key : string) (default : pyval) : method t pyval :=
  fun self =>
    if dict.__contains__ self key then __getitem__ key self
    else
      match default with
      | VNone => (OK VNone, self)
      | _ => dict.setdefault key default self
      end.

(** [PropertySet(iterable, **kwargs)]: the object exists only if
    [update] did not raise. *)
Definition __init__ (iterable : option (list (string * pyval)))
    (kwargs : list (string * pyval)) : result t :=
  match update iterable kwargs [] with
  | (OK _, self) => OK self
  | (Raise e, _) => Raise e
  end.

Definition __eq__ (self : t) (other : operand) : result bool :=
  match other with
  | a_PropertySet other => OK (dict.__eq__ self other)
  | a_mapping other =>
      match __init__ other [] with
      | OK other => OK (dict.__eq__ self other)
      | Raise e => Raise e
      end
  end.

(** The loop of [__hash__]: the loop target [value] is the variable
    that the method also accumulates into and returns. *)
Fixpoint hash_loop (items : list (string * pyval)) (value : pyval)
    : result pyval :=
  match items with
  | [] => OK value
  | (key, value) :: items =>
      match
        (if isinstance value TList
         then match value with
              | VSeq _ elements =>
                  ixor value (hash (tuple [VStr key; tuple elements]))
              | _ => ixor value (hash (tuple [VStr key; value]))
              end
         else ixor value (hash (tuple [VStr key; value])))
      with
      | OK value => hash_loop items value
      | Raise e => Raise e
      end
  end.

Definition __hash__ (self : t) : result pyval :=
  hash_loop (dict.items self) (VInt 0).

(** [not self.__eq__(other)] *)
Definition __ne__ (self : t) (other : operand) : result bool :=
  match __eq__ self other with
  | OK equal => OK (negb equal)
  | Raise e => Raise e
  end.
End Methods.
End PropertySet.

(** Every stored value is one that Neo4j supports, and no key is bound
    twice. *)
Definition supported_store (self : PropertySet.t) : Prop :=
  dict.well_formed self
  /\ forall key value, dict.get self key = Some value ->
                       is_supported value = true.

(** ** Entities

    A [Node] or [Relationship] is equal only to itself and hashes by
    [id(self)]: an entity is its identity together with the attributes
    fixed when it is constructed.  Its properties stay mutable and live in
    the [PropertySet] that the constructor hands back. *)
Record node := { node_id : positive; node_labels : gset string }.

(** What a positional argument of [Relationship] may be. *)
Inductive object :=
| O_None
| O_Node (n : node)
| O_Str (s : string).

Record relationship := {
  rel_id : positive;
  endpoints : list object;
  type_ : object
}.

#[global] Instance node_eq_dec : EqDecision node.
Proof. solve_decision. Defined.
#[global] Instance node_countable : Countable node.
Proof.
  apply (inj_countable' (fun n => (node_id n, node_labels n))
           (fun p => {| node_id := p.1; node_labels := p.2 |})).
  by intros [].
Defined.

#[global] Instance object_eq_dec : EqDecision object.
Proof. solve_decision. Defined.
#[global] Instance object_countable : Countable object.
Proof.
  apply (inj_countable'
           (fun o => match o with
                     | O_None => inl ()
                     | O_Node n => inr (inl n)
                     | O_Str s => inr (inr s)
                     end)
           (fun c => match c with
                     | inl _ => O_None
                     | inr (inl n) => O_Node n
                     | inr (inr s) => O_Str s
                     end)).
  by intros [].
Defined.

#[global] Instance relationship_eq_dec : EqDecision relationship.
Proof. solve_decision. Defined.
#[global] Instance relationship_countable : Countable relationship.
Proof.
  apply (inj_countable' (fun r => (rel_id r, endpoints r, type_ r))
           (fun p => {| rel_id := p.1.1; endpoints := p.1.2; type_ := p.2 |})).
  by intros [].
Defined.

(** [frozenset(iterable)] and the list that iterating over a set yields. *)
Definition frozenset `{Countable A} (iterable : list A) : gset A :=
  list_to_set iterable.
Definition iter `{Countable A} (s : gset A) : list A := elements s.

(** The union of the empty set with every argument of [set().union]. *)
Definition set_union `{Countable A} (others : list (list A)) : gset A :=
  fold_left (fun acc other => acc ∪ frozenset other) others ∅.

(** ** EntitySetView *)
Module EntitySetView.
Section View.
Context `{Countable A}.

Record t := EntitySetView { _entities : list A }.

Definition __iter__ (self : t) : list A := _entities self.
Definition __len__ (self : t) : nat := length (_entities self).
Definition __contains__ (self : t) (item : A) : bool :=
  bool_decide (item ∈ _entities self).
Definition __eq__ (self : t) (other : list A) : bool :=
  bool_decide (frozenset (__iter__ self) = frozenset other).
Definition __or__ (self : t) (other : list A) : t :=
  EntitySetView (iter (frozenset (__iter__ self) ∪ frozenset other)).
Definition __and__ (self : t) (other : list A) : t :=
  EntitySetView (iter (frozenset (__iter__ self) ∩ frozenset other)).
Definition __sub__ (self : t) (other : list A) : t :=
  EntitySetView (iter (frozenset (__iter__ self) ∖ frozenset other)).
Definition __xor__ (self : t) (other : list A) : t :=
  EntitySetView
    (iter ((frozenset (__iter__ self) ∖ frozenset other)
           ∪ (frozenset other ∖ frozenset (__iter__ self)))).
End View.
Arguments t A : clear implicits.
End EntitySetView.

(** ** GraphView *)
Module GraphView.
Import EntitySetView.

Record t := GraphView {
  nodes : EntitySetView.t object;
  relationships : EntitySetView.t relationship;
  order : nat;
  size : nat
}.

Definition __init__ (nodes : list object)
    (relationships : list relationship) : t :=
  let nodes := EntitySetView (iter (frozenset nodes)) in
  let relationships := EntitySetView (iter (frozenset relationships)) in
  GraphView nodes relationships
    (EntitySetView.__len__ nodes) (EntitySetView.__len__ relationships).

(** [rel.nodes]: the nodes view that [Relationship.__init__] sets up
    from the endpoints. *)
Definition rel_nodes (rel : relationship) : EntitySetView.t object :=
  EntitySetView (iter (frozenset (endpoints rel))).

Definition __eq__ (self other : t) : bool :=
  EntitySetView.__eq__ (nodes self) (__iter__ (nodes other)) &&
  EntitySetView.__eq__ (relationships self) (__iter__ (relationships other)).

Definition __len__ (self : t) : nat :=
  EntitySetView.__len__ (relationships self).

Definition __iter__ (self : t) : list relationship :=
  EntitySetView.__iter__ (relationships self).

Definition __bool__ (self : t) : bool :=
  negb (Nat.eqb (EntitySetView.__len__ (relationships self)) 0).

Definition __or__ (self other : t) : t :=
  __init__
    (EntitySetView.__iter__
       (EntitySetView.__or__ (nodes self)
          (EntitySetView.__iter__ (nodes other))))
    (EntitySetView.__iter__
       (EntitySetView.__or__ (relationships self)
          (EntitySetView.__iter__ (relationships other)))).

Definition __and__ (self other : t) : t :=
  __init__
    (EntitySetView.__iter__
       (EntitySetView.__and__ (nodes self)
          (EntitySetView.__iter__ (nodes other))))
    (EntitySetView.__iter__
       (EntitySetView.__and__ (relationships self)
          (EntitySetView.__iter__ (relationships other)))).

(** The generator [(rel.nodes for rel in relationships)], each view as
    the list that iterating over it yields. *)
Definition nodes_of (relationships : EntitySetView.t relationship)
    : list (list object) :=
  map (fun rel => EntitySetView.__iter__ (rel_nodes rel))
    (EntitySetView.__iter__ relationships).

Definition __sub__ (self other : t) : t :=
  let relationships :=
    EntitySetView.__sub__ (relationships self)
      (EntitySetView.__iter__ (relationships other)) in
  let nodes :=
    EntitySetView.__or__
      (EntitySetView.__sub__ (nodes self)
         (EntitySetView.__iter__ (nodes other)))
      (iter (set_union (nodes_of relationships))) in
  __init__ (EntitySetView.__iter__ nodes)
    (EntitySetView.__iter__ relationships).

Definition __xor__ (self other : t) : t :=
  let relationships :=
    EntitySetView.__xor__ (relationships self)
      (EntitySetView.__iter__ (relationships other)) in
  let nodes :=
    EntitySetView.__or__
      (EntitySetView.__xor__ (nodes self)
         (EntitySetView.__iter__ (nodes other)))
      (iter (set_union (nodes_of relationships))) in
  __init__ (EntitySetView.__iter__ nodes)
    (EntitySetView.__iter__ relationships).

(** The members of the two views, as sets. *)
Definition node_set (self : t) : gset object :=
  frozenset (EntitySetView.__iter__ (nodes self)).
Definition relationship_set (self : t) : gset relationship :=
  frozenset (EntitySetView.__iter__ (relationships self)).

(** [frozenset(relationship.type for relationship in self.relationships)] *)
Definition types (self : t) : gset object :=
  frozenset (map type_ (EntitySetView.__iter__ (relationships self))).

(** [node.labels] for a member of the node set: a Node has the attribute,
    [None] and a string have not, and reading it raises AttributeError,
    which [None] stands for here. *)
Definition labels_of (member : object) : option (gset string) :=
  match member with
  | O_Node n => Some (node_labels n)
  | O_None | O_Str _ => None
  end.

(** The property [labels]: the union of [node.labels] over the nodes,
    every one of which is read before the union is taken. *)
Definition labels (self : t) : option (gset string) :=
  match mapM labels_of (EntitySetView.__iter__ (nodes self)) with
  | Some sets => Some (⋃ sets)
  | None => None
  end.

(** No relationship of the view has an endpoint outside its nodes. *)
Definition induced (self : t) : Prop :=
  forall r n,
    r ∈ relationship_set self -> n ∈ endpoints r -> n ∈ node_set self.
End GraphView.

(** ** PropertyContainer, Node and Relationship *)
Module PropertyContainer.
Section Methods.
Context {RT : Runtime}.

(** [self.properties = PropertySet(properties)] *)
Definition __init__ (properties : list (string * pyval))
    : result PropertySet.t :=
  PropertySet.__init__ (Some properties) [].

(** The methods below run on [self.properties]. *)
Definition __contains__ (properties : PropertySet.t) (key : string) : bool :=
  dict.__contains__ properties key.
Definition __getitem__ (key : string) : method PropertySet.t pyval :=
  PropertySet.__getitem__ key.
Definition __setitem__ (key : string) (value : pyval)
    : method PropertySet.t unit :=
  PropertySet.__setitem__ key value.
Definition __delitem__ (key : string) : method PropertySet.t unit :=
  dict.__delitem__ key.
Definition __iter__ : result (list string) :=
  Raise (TypeError object_is_not_iterable).
End Methods.
End PropertyContainer.

Module Node.
(** The constructor of [Node], for an object allocated at identity [id],
    from its labels and keyword properties: the node,
    its properties and the graph view it is. *)
Definition __init__ {RT : Runtime} (id : positive) (labels : list string)
    (properties : list (string * pyval))
    : result (node * PropertySet.t * GraphView.t) :=
  match PropertyContainer.__init__ properties with
  | Raise e => Raise e
  | OK props =>
      let self := {| node_id := id; node_labels := list_to_set labels |} in
      OK (self, props, GraphView.__init__ [O_Node self] [])
  end.

Definition __len__ (self : node) : nat := 0.
Definition __iter__ (self : node) : list relationship := [].
End Node.

Module Relationship.
(** The constructor of [Relationship], for an object allocated at
    identity [id], from its positional arguments and keyword properties. *)
Definition __init__ {RT : Runtime} (id : positive) (args : list object)
    (properties : list (string * pyval))
    : result (relationship * PropertySet.t * GraphView.t) :=
  match PropertyContainer.__init__ properties with
  | Raise e => Raise e
  | OK props =>
      let self :=
        match args with
        | [] =>
            {| rel_id := id; endpoints := [O_None; O_None]; type_ := O_None |}
        | [arg0] =>
            {| rel_id := id; endpoints := [O_None; O_None]; type_ := arg0 |}
        | [_; _] =>
            {| rel_id := id; endpoints := args; type_ := O_None |}
        | arg0 :: arg1 :: rest =>
            {| rel_id := id; endpoints := arg0 :: rest; type_ := arg1 |}
        end in
      OK (self, props, GraphView.__init__ (endpoints self) [self])
  end.

Definition __len__ (self : relationship) : nat := 1.
Definition __iter__ (self : relationship) : list relationship := [self].

(** [self.endpoints[0]] *)
Definition start (self : relationship) : result object :=
  match endpoints self with
  | first :: _ => OK first
  | [] => Raise IndexError
  end.

(** [self.endpoints[-1]] *)
Definition end_ (self : relationship) : result object :=
  match last (endpoints self) with
  | Some final => OK final
  | None => Raise IndexError
  end.
End Relationship.

(** ** The life of a PropertySet

    The calls through which a program changes a PropertySet, and the
    states they lead to.  A call that raises leaves behind whatever state
    it had reached, and the program may go on using the object. *)
Module History.
Inductive call :=
| setitem (key : string) (value : pyval)
| setdefault (key : string) (default : pyval)
| update (iterable : option (list (string * pyval)))
    (kwargs : list (string * pyval))
| replace (iterable : option (list (string * pyval)))
    (kwargs : list (string * pyval))
| delitem (key : string)
| clear.

Section Runs.
Context {RT : Runtime}.

Definition perform (c : call) (self : PropertySet.t) : PropertySet.t :=
  match c with
  | setitem key value => snd (PropertySet.__setitem__ key value self)
  | setdefault key default => snd (PropertySet.setdefault key default self)
  | update iterable kwargs => snd (PropertySet.update iterable kwargs self)
  | replace iterable kwargs => snd (PropertySet.replace iterable kwargs self)
  | delitem key => snd (PropertyContainer.__delitem__ key self)
  | clear => snd (dict.clear self)
  end.

(** The states a PropertySet created empty can get into. *)
Inductive reachable : PropertySet.t -> Prop :=
| reachable_new : reachable []
| reachable_call c self : reachable self -> reachable (perform c self).

(** No stored value is the absent marker. *)
Definition populated (self : PropertySet.t) : Prop :=
  forall k, dict.get self k <> Some VNone.

(** The state after the assignments [self[key] = value] of a history,
    made in order on [self]. *)
Definition assign (self : PropertySet.t) (history : list (string * pyval))
    : PropertySet.t :=
  fold_left (fun self kv => perform (setitem (fst kv) (snd kv)) self)
    history self.

(** The same history with every assignment to [key] left out. *)
Definition without (key : string) (history : list (string * pyval))
    : list (string * pyval) :=
  List.filter (fun kv => negb (String.eqb (fst kv) key)) history.
End Runs.
End History.

(** ** A runtime to evaluate examples on

    Python 3 in outline: [ustr] hands a [str] back as it is, [isoformat]
    prints ISO 8601, [float] rounds a decimal to the nearest binary64,
    [==] compares numbers by value and collections item by item, and
    [hash] folds over the structure.  The theorems below hold for every
    runtime; this one only serves to run the code on inputs. *)
Module Python3.
#[global] Instance seqkind_eq_dec : EqDecision seqkind.
Proof. solve_decision. Defined.
#[global] Instance spec_float_eq_dec : EqDecision spec_float.
Proof. solve_decision. Defined.
#[global] Instance temporal_eq_dec : EqDecision temporal.
Proof. solve_decision. Defined.
#[global] Instance Decimal_eq_dec : EqDecision Decimal.
Proof. solve_decision. Defined.

(** The last [width] decimal digits of [n]. *)
Fixpoint digits (width : nat) (n : Z) : string :=
  match width with
  | O => EmptyString
  | S width =>
      digits width (n / 10)
      +:+ String (Ascii.ascii_of_N (48 + Z.to_N (n mod 10))) EmptyString
  end.

Definition iso_date (year month day : Z) : string :=
  digits 4 year +:+ "-" +:+ digits 2 month +:+ "-" +:+ digits 2 day.

Definition iso_time (hour minute second microsecond : Z) : string :=
  digits 2 hour +:+ ":" +:+ digits 2 minute +:+ ":" +:+ digits 2 second
  +:+ (if microsecond =? 0 then EmptyString
       else "." +:+ digits 6 microsecond).

Definition isoformat (t : temporal) : string :=
  match t with
  | Date y m d => iso_date y m d
  | Time h mi s us => iso_time h mi s us
  | Datetime y m d h mi s us => iso_date y m d +:+ "T" +:+ iso_time h mi s us
  end.

(** [float(d)]: the binary64 nearest to the decimal, ties to even.  The
    quotient of the coefficient by a power of ten is rounded once, from
    the exact integers. *)
Definition float (d : Decimal) : spec_float :=
  match d with
  | DecNaN => S754_nan
  | DecInfinity negative => S754_infinity negative
  | DecFinite negative N0 _ => S754_zero negative
  | DecFinite negative (Npos coefficient) exponent =>
      if 0 <=? exponent
      then binary_normalize 53 1024
             ((if negative then Z.neg coefficient else Z.pos coefficient)
              * 10 ^ exponent) 0 false
      else SFdiv 53 1024
             (S754_finite negative coefficient 0)
             (S754_finite false (Z.to_pos (10 ^ (- exponent))) 0)
  end.

Fixpoint hash_str (s : string) : Z :=
  match s with
  | EmptyString => 0
  | String c s => Z.of_N (Ascii.N_of_ascii c) + 31 * hash_str s
  end.

Fixpoint hash (v : pyval) : Z :=
  match v with
  | VBool b => Z.b2z b
  | VInt i => i
  | VStr s => hash_str s
  | VSeq _ items =>
      fold_left (fun h item => 1000003 * h + hash item) items 3430008
  | _ => 0
  end.

(** What a number is worth, exactly: a fraction with a positive
    denominator, an infinity, or not a number. *)
Inductive number :=
| Fraction (numerator denominator : Z)
| Infinite (negative : bool)
| NotANumber.

Definition number_of_float (x : spec_float) : number :=
  match x with
  | S754_zero _ => Fraction 0 1
  | S754_infinity negative => Infinite negative
  | S754_nan => NotANumber
  | S754_finite negative m e =>
      let m := if negative then Z.neg m else Z.pos m in
      if 0 <=? e then Fraction (m * 2 ^ e) 1 else Fraction m (2 ^ (- e))
  end.

Definition number_of_Decimal (d : Decimal) : number :=
  match d with
  | DecNaN => NotANumber
  | DecInfinity negative => Infinite negative
  | DecFinite negative coefficient exponent =>
      let c := if negative then - Z.of_N coefficient
               else Z.of_N coefficient in
      if 0 <=? exponent then Fraction (c * 10 ^ exponent) 1
      else Fraction c (10 ^ (- exponent))
  end.

(** Equal numbers; not a number equals nothing, itself included. *)
Definition number_eq (a b : number) : bool :=
  match a, b with
  | Fraction n d, Fraction n' d' => n * d' =? n' * d
  | Infinite s, Infinite s' => Bool.eqb s s'
  | _, _ => false
  end.

(** The real and the imaginary part of a value of a numeric class. *)
Definition parts (v : pyval) : option (number * number) :=
  match v with
  | VBool b => Some (Fraction (Z.b2z b) 1, Fraction 0 1)
  | VInt i => Some (Fraction i 1, Fraction 0 1)
  | VFloat x => Some (number_of_float x, Fraction 0 1)
  | VDecimal d => Some (number_of_Decimal d, Fraction 0 1)
  | VComplex real imag => Some (number_of_float real, number_of_float imag)
  | _ => None
  end.

(** [a == b] for two values held in separate objects.  Numbers are
    compared by what they are worth, across [bool], [int], [float],
    [Decimal] and [complex]; strings, dates and times with their own
    class only; lists and tuples item by item, each with its own class; a
    set or frozenset with either, by size and membership; an object of
    any other class with nothing, its [==] being identity.  A container
    that finds [a is b] does not ask [==]; that shortcut needs the
    identity of values and is not part of this function. *)
Fixpoint py_eq (a b : pyval) : bool :=
  match a, b with
  | VNone, VNone => true
  | VStr x, VStr y => bool_decide (x = y)
  | VTemporal x, VTemporal y => bool_decide (x = y)
  | VSeq k xs, VSeq k' ys =>
      match k, k' with
      | KList, KList | KTuple, KTuple =>
          (fix all_eq (xs ys : list pyval) : bool :=
             match xs, ys with
             | [], [] => true
             | x :: xs, y :: ys => py_eq x y && all_eq xs ys
             | _, _ => false
             end) xs ys
      | (KSet | KFrozenset), (KSet | KFrozenset) =>
          (length xs =? length ys)%nat
          && forallb (fun x => existsb (py_eq x) ys) xs
      | _, _ => false
      end
  | _, _ =>
      match parts a, parts b with
      | Some (real, imag), Some (real', imag') =>
          number_eq real real' && number_eq imag imag'
      | _, _ => false
      end
  end.

Definition runtime : Runtime :=
  Build_Runtime (fun s => s) isoformat float hash py_eq.
End Python3.

(** Two nodes and a relationship between them, to run the examples on. *)
Definition alice : object :=
  O_Node {| node_id := 1; node_labels := {["Person"%string]} |}.
Definition bob : object :=
  O_Node {| node_id := 2; node_labels := {["Person"%string]} |}.
Definition knows : relationship :=
  {| rel_id := 3; endpoints := [alice; bob]; type_ := O_Str "KNOWS" |}.
Definition alice_knows_bob : GraphView.t :=
  GraphView.__init__ [alice; bob] [knows].
Definition bob_alone : GraphView.t := GraphView.__init__ [bob] [].
Definition bob_with_knows : GraphView.t := GraphView.__init__ [bob] [knows].
Definition carol : node :=
  {| node_id := 6; node_labels := list_to_set ["Person"; "Person"]%string |}.
Definition untyped : relationship :=
  {| rel_id := 4; endpoints := [O_None; O_None]; type_ := O_Str "KNOWS" |}.

(** * Verification *)

(** ** Induction over values, through the items of a collection *)
Lemma pyval_items_ind (P : pyval -> Prop) :
  P VNone ->
  (forall b, P (VBool b)) ->
  (forall x, P (VFloat x)) ->
  (forall i, P (VInt i)) ->
  (forall s, P (VStr s)) ->
  (forall kind items, Forall P items -> P (VSeq kind items)) ->
  (forall t, P (VTemporal t)) ->
  (forall d, P (VDecimal d)) ->
  (forall real imag, P (VComplex real imag)) ->
  (forall class_name, P (VObject class_name)) ->
  forall v, P v.
Proof.
  intros HNone HBool HFloat HInt HStr HSeq HTemporal HDecimal HComplex HObject.
  fix IH 1.
  intros [| b | x | i | s | kind items | t | d | real imag | class_name];
    [ exact HNone | apply HBool | apply HFloat | apply HInt | apply HStr
    | apply HSeq | apply HTemporal | apply HDecimal | apply HComplex
    | apply HObject ].
  induction items as [| item items IHitems]; constructor;
    [ apply IH | exact IHitems ].
Qed.

(** ** The property caster *)
Section CasterTheory.
Context {RT : Runtime}.

Lemma pytype_eqb_eq a b : pytype_eqb a b = true <-> a = b.
Proof. destruct a, b; simpl; split; (congruence || discriminate). Qed.


Lemma in_range_spec (i : Z) :
  (JAVA_INTEGER_MIN_VALUE <=? i) && (i <=? JAVA_INTEGER_MAX_VALUE) = true
  <-> - 2 ^ 63 <= i <= 2 ^ 63 - 1.
Proof.
  unfold JAVA_INTEGER_MIN_VALUE, JAVA_INTEGER_MAX_VALUE.
  rewrite andb_true_iff, !Z.leb_le. tauto.
Qed.

(** What a successful run of the loop returns: the accumulator extended
    by the canonical form of every item, in order. *)
Lemma cast_items_OK cast items list_type list_value r :
  cast_items cast items list_type list_value = OK r ->
  exists canonical,
    r = list_ (list_value ++ canonical) /\
    Forall2 (fun item c => cast item = OK c) items canonical.
Proof.
  revert list_type list_value.
  induction items as [| item items IH]; intros list_type list_value; simpl.
  - intros [= <-]. exists []. by rewrite app_nil_r.
  - destruct (cast item) as [c |] eqn:Hitem; [| discriminate].
    destruct list_type as [cls |].
    + destruct (negb (isinstance c cls)); [discriminate |].
      intros (canonical & -> & Hall)%IH.
      exists (c :: canonical). rewrite <- app_assoc. by split; [| constructor].
    + destruct (pytype_eqb (type c) TList); [discriminate |].
      intros (canonical & -> & Hall)%IH.
      exists (c :: canonical). rewrite <- app_assoc. by split; [| constructor].
Qed.

(** Running the loop on canonical forms that cast to themselves goes
    through the very same checks as running it on the items. *)
Lemma cast_items_canonical cast items canonical list_type list_value :
  Forall2 (fun item c => cast item = OK c) items canonical ->
  Forall (fun c => cast c = OK c) canonical ->
  cast_items cast canonical list_type list_value
  = cast_items cast items list_type list_value.
Proof.
  intros Hall. revert list_type list_value.
  induction Hall as [| item c items canonical Hitem Hall IH];
    intros list_type list_value Hfix; [done |].
  apply Forall_cons in Hfix as [Hc Hfix]. simpl. rewrite Hitem, Hc.
  destruct list_type as [cls |].
  - destruct (negb (isinstance c cls)); [done | by apply IH].
  - destruct (pytype_eqb (type c) TList); [done | by apply IH].
Qed.


Lemma cast_property_in_range (i : Z) :
  - 2 ^ 63 <= i <= 2 ^ 63 - 1 -> cast_property (VInt i) = OK (VInt i).
Proof. intros Hi%in_range_spec. simpl. by rewrite Hi. Qed.

Lemma cast_property_out_of_range (i : Z) :
  ~ (- 2 ^ 63 <= i <= 2 ^ 63 - 1) ->
  cast_property (VInt i) = Raise OutOfRange.
Proof.
  intros Hi. simpl.
  destruct ((JAVA_INTEGER_MIN_VALUE <=? i) && (i <=? JAVA_INTEGER_MAX_VALUE))
    eqn:Hrange; [| done].
  by apply in_range_spec in Hrange.
Qed.

(** C6: for every integer [i], casting [i] succeeds exactly when
    [-2**63 <= i <= 2**63 - 1], and then returns [i] unchanged; outside
    the range it raises OutOfRange, in particular one unit below the
    lower bound and one unit above the upper bound. *)
Theorem cast_property_integer_range (i : Z) :
  ((exists c, cast_property (VInt i) = OK c) <-> - 2 ^ 63 <= i <= 2 ^ 63 - 1)
  /\ (cast_property (VInt i) = OK (VInt i) <-> - 2 ^ 63 <= i <= 2 ^ 63 - 1)
  /\ (cast_property (VInt i) = Raise OutOfRange
      <-> ~ (- 2 ^ 63 <= i <= 2 ^ 63 - 1))
  /\ cast_property (VInt (- 2 ^ 63 - 1)) = Raise OutOfRange
  /\ cast_property (VInt (2 ^ 63 - 1 + 1)) = Raise OutOfRange.
Proof.
  assert (cast_property (VInt (- 2 ^ 63 - 1)) = Raise OutOfRange
          /\ cast_property (VInt (2 ^ 63 - 1 + 1)) = Raise OutOfRange)
    as Hbounds by (split; apply cast_property_out_of_range; lia).
  destruct (decide (- 2 ^ 63 <= i <= 2 ^ 63 - 1)) as [Hi | Hi].
  - rewrite (cast_property_in_range i Hi).
    split; [| split; [| split]]; [| | | exact Hbounds].
    + split; [done | eauto].
    + done.
    + split; [discriminate | done].
  - rewrite (cast_property_out_of_range i Hi).
    split; [| split; [| split]]; [| | | exact Hbounds].
    + split; [by intros [c Hc] | done].
    + split; [discriminate | done].
    + done.
Qed.

(** C8: for every value [v] on which the caster succeeds, casting the
    result succeeds again and returns it unchanged,
    cast(cast(v)) == cast(v), for every kind of value: booleans, floats,
    integers, strings, sequences, and the normalized forms of dates,
    decimals and complex numbers.  The runtime is asked that [ustr]
    leaves alone the unicode strings that [ustr] and [isoformat] return. *)
Theorem cast_property_idempotent :
  (forall s, ustr (ustr s) = ustr s) ->
  (forall t, ustr (isoformat t) = isoformat t) ->
  forall v c, cast_property v = OK c -> cast_property c = OK c.
Proof.
  intros Hustr Hiso v.
  induction v as [| b | x | i | s | kind items IH | t | d | real imag | cn]
    using pyval_items_ind;
    intros c Hc; simpl in Hc; try discriminate.
  - by injection Hc as <-.
  - by injection Hc as <-.
  - destruct ((JAVA_INTEGER_MIN_VALUE <=? i) && (i <=? JAVA_INTEGER_MAX_VALUE))
      eqn:Hrange; [| discriminate].
    injection Hc as <-. simpl. by rewrite Hrange.
  - injection Hc as <-. simpl. by rewrite Hustr.
  - destruct (cast_items_OK _ _ _ _ _ Hc) as (canonical & -> & Hall).
    simpl in *. rewrite <- Hc.
    apply cast_items_canonical; [exact Hall |].
    clear Hc. induction Hall as [| item c items canonical Hitem Hall IHall];
      [constructor |].
    apply Forall_cons in IH as [IHitem IH].
    constructor; [by apply IHitem | by apply IHall].
  - injection Hc as <-. simpl. by rewrite Hiso.
  - by injection Hc as <-.
  - by injection Hc as <-.
Qed.
End CasterTheory.

Section CasterExamples.
#[local] Existing Instance Python3.runtime.

Lemma cast_property_idempotent_witness :
  cast_property
    (tuple [VTemporal (Date 2015 1 2); VStr "x"; VTemporal (Time 3 4 5 0)])
  = OK (list_ [VStr "2015-01-02"; VStr "x"; VStr "03:04:05"])
  /\ cast_property (list_ [VStr "2015-01-02"; VStr "x"; VStr "03:04:05"])
     = OK (list_ [VStr "2015-01-02"; VStr "x"; VStr "03:04:05"]).
Proof.
  split; [reflexivity |].
  apply (cast_property_idempotent (RT := Python3.runtime))
    with (v := tuple [VTemporal (Date 2015 1 2); VStr "x";
                      VTemporal (Time 3 4 5 0)]).
  - intros s. reflexivity.
  - intros t. reflexivity.
  - reflexivity.
Defined.


End CasterExamples.

(** ** The built-in dict *)
Section DictTheory.
Implicit Types (self : dict.t) (key k : string) (value : pyval).

Ltac by_key_cases :=
  repeat match goal with
    | |- context [String.eqb ?a ?b] =>
        destruct (String.eqb_spec a b); subst; simpl; try congruence
    | H : context [String.eqb ?a ?b] |- _ =>
        destruct (String.eqb_spec a b); subst; simpl in H; try congruence
    end.

Lemma get_store self key value k :
  dict.get (dict.store key value self) k
  = if String.eqb key k then Some value else dict.get self k.
Proof.
  induction self as [| [k0 v0] self IH]; simpl; [by_key_cases; done |].
  destruct (String.eqb_spec k0 key); subst; simpl.
  - by_key_cases; done.
  - rewrite IH. by_key_cases; done.
Qed.

Lemma get_remove self key k :
  dict.get (dict.remove key self) k
  = if String.eqb key k then None else dict.get self k.
Proof.
  unfold dict.remove.
  induction self as [| [k0 v0] self IH]; simpl; [by_key_cases; done |].
  destruct (String.eqb_spec k0 key); subst; simpl.
  - rewrite IH. by_key_cases; done.
  - rewrite IH. by_key_cases; done.
Qed.

Lemma remove_absent self key :
  dict.get self key = None -> dict.remove key self = self.
Proof.
  unfold dict.remove.
  induction self as [| [k0 v0] self IH]; simpl; [done |].
  destruct (String.eqb_spec k0 key); subst; simpl; [done |].
  intros Hget. by rewrite IH.
Qed.

Lemma remove_remove self key k :
  dict.remove key (dict.remove k self) = dict.remove k (dict.remove key self).
Proof.
  unfold dict.remove.
  induction self as [| [k0 v0] self IH]; simpl; [done |].
  destruct (negb (String.eqb k0 k)) eqn:Hk,
           (negb (String.eqb k0 key)) eqn:Hkey;
    simpl; rewrite ?Hk, ?Hkey; simpl; by rewrite ?IH.
Qed.

Lemma remove_twice self key :
  dict.remove key (dict.remove key self) = dict.remove key self.
Proof. apply remove_absent. rewrite get_remove. by rewrite String.eqb_refl. Qed.

Lemma remove_store self key value :
  dict.remove key (dict.store key value self) = dict.remove key self.
Proof.
  unfold dict.remove.
  induction self as [| [k0 v0] self IH]; simpl.
  - by rewrite String.eqb_refl.
  - destruct (String.eqb_spec k0 key); subst; simpl.
    + by rewrite String.eqb_refl.
    + by_key_cases; by rewrite ?IH.
Qed.

Lemma remove_store_other self key k value :
  key <> k ->
  dict.remove key (dict.store k value self)
  = dict.store k value (dict.remove key self).
Proof.
  intros Hne. unfold dict.remove.
  induction self as [| [k0 v0] self IH]; simpl.
  - by_key_cases; done.
  - destruct (String.eqb_spec k0 k), (String.eqb_spec k0 key);
      subst; simpl; rewrite ?String.eqb_refl; simpl; try congruence.
    + by_key_cases; done.
    + by_key_cases; by rewrite ?IH.
Qed.

Lemma keys_store self key value k :
  k ∈ map fst (dict.store key value self) <-> k = key \/ k ∈ map fst self.
Proof.
  induction self as [| [k0 v0] self IH]; simpl.
  - rewrite list_elem_of_singleton.
    split; [auto | by intros [? | ?%elem_of_nil]].
  - destruct (String.eqb_spec k0 key); subst; simpl.
    + rewrite !elem_of_cons. tauto.
    + rewrite !elem_of_cons, IH. tauto.
Qed.

Lemma well_formed_store self key value :
  dict.well_formed self -> dict.well_formed (dict.store key value self).
Proof.
  unfold dict.well_formed.
  induction self as [| [k0 v0] self IH]; simpl.
  - intros _. apply NoDup_singleton.
  - intros [Hk0 Hself]%NoDup_cons.
    destruct (String.eqb_spec k0 key); subst; simpl.
    + by apply NoDup_cons.
    + apply NoDup_cons. split; [| by apply IH].
      rewrite keys_store. intros [? | ?]; congruence.
Qed.

Lemma well_formed_remove self key :
  dict.well_formed self -> dict.well_formed (dict.remove key self).
Proof.
  unfold dict.well_formed, dict.remove.
  induction self as [| [k0 v0] self IH]; simpl; [done |].
  intros [Hk0 Hself]%NoDup_cons.
  destruct (negb (String.eqb k0 key)); simpl; [| by apply IH].
  apply NoDup_cons. split; [| by apply IH].
  intros Hin. apply Hk0.
  apply list_elem_of_fmap in Hin as ([k1 v1] & -> & Hin).
  apply list_elem_of_In, filter_In in Hin as [Hin _].
  apply list_elem_of_fmap. exists (k1, v1). by rewrite list_elem_of_In.
Qed.

Lemma well_formed_new iterable kwargs :
  dict.well_formed (dict.new iterable kwargs).
Proof.
  unfold dict.new.
  assert (forall pairs self,
            dict.well_formed self ->
            dict.well_formed
              (fold_left (fun d kv => dict.store (fst kv) (snd kv) d) pairs self))
    as Hfold.
  { induction pairs as [| kv pairs IH]; intros self Hself; simpl; [done |].
    by apply IH, well_formed_store. }
  apply Hfold. apply NoDup_nil_2.
Qed.

Lemma get_In self key value :
  dict.well_formed self ->
  In (key, value) self -> dict.get self key = Some value.
Proof.
  unfold dict.well_formed.
  induction self as [| [k0 v0] self IH]; simpl; [done |].
  intros [Hk0 Hself]%NoDup_cons [[= -> ->] | Hin].
  - by rewrite String.eqb_refl.
  - destruct (String.eqb_spec k0 key); subst; [| by apply IH].
    exfalso. apply Hk0. apply list_elem_of_fmap. exists (key, value).
    by rewrite list_elem_of_In.
Qed.

Lemma get_None_keys self k :
  dict.get self k = None <-> k ∉ map fst self.
Proof.
  induction self as [| [k0 v0] self IH]; simpl.
  - split; [intros _; apply not_elem_of_nil | done].
  - rewrite not_elem_of_cons.
    destruct (String.eqb_spec k0 k) as [-> | Hne]; [by split; [| intros []] |].
    rewrite IH. split; [by split | by intros []].
Qed.

Lemma get_Some_In self k v : dict.get self k = Some v -> In (k, v) self.
Proof.
  induction self as [| [k0 v0] self IH]; simpl; [done |].
  destruct (String.eqb_spec k0 k) as [-> | Hne].
  - intros [= ->]. by left.
  - intros Hget. right. by apply IH.
Qed.

Lemma keys_get self k :
  k ∈ map fst self <-> dict.get self k <> None.
Proof.
  rewrite get_None_keys.
  destruct (decide (k ∈ map fst self)); split; tauto.
Qed.

(** [dict.__eq__] holds between two dicts that bind the same keys to the
    same values, as soon as [==] holds between each of these values and
    itself. *)
Lemma dict_eq_lookups {RT : Runtime} self (other : dict.t) :
  dict.well_formed self -> dict.well_formed other ->
  (forall k, dict.get other k = dict.get self k) ->
  (forall k v, dict.get self k = Some v -> py_eq v v = true) ->
  dict.__eq__ self other = true.
Proof.
  intros Hself Hother Hsame Hrefl. unfold dict.__eq__.
  assert (length self = length other) as ->.
  { rewrite <- (length_map fst self), <- (length_map fst other).
    apply Permutation_length, NoDup_Permutation; [done | done |].
    intros k. by rewrite !keys_get, Hsame. }
  rewrite Nat.eqb_refl. simpl.
  apply forallb_forall. intros [k v] Hin. simpl.
  apply (get_In self k v Hself) in Hin.
  rewrite Hsame, Hin. by apply (Hrefl k v).
Qed.
End DictTheory.

(** ** PropertySet *)
Section PropertySetTheory.
Context {RT : Runtime}.
Implicit Types (self : PropertySet.t) (key k : string) (value : pyval).

(** The two branches of [__setitem__]. *)
Lemma setitem_None self key :
  PropertySet.__setitem__ key VNone self = (OK tt, dict.remove key self).
Proof.
  unfold PropertySet.__setitem__, try_except_KeyError, dict.__delitem__,
    dict.__contains__, ret.
  destruct (dict.get self key) eqn:Hget; [done |].
  by rewrite remove_absent.
Qed.

Lemma setitem_value self key value :
  value <> VNone ->
  PropertySet.__setitem__ key value self
  = match cast_property value with
    | OK canonical => (OK tt, dict.store key canonical self)
    | Raise e => (Raise e, self)
    end.
Proof.
  intros Hvalue. destruct value; [done | ..];
    unfold PropertySet.__setitem__, bind, eval, dict.__setitem__;
    by destruct (cast_property _).
Qed.

Lemma cast_property_not_None value canonical :
  cast_property value = OK canonical -> canonical <> VNone.
Proof.
  destruct value; simpl; try congruence.
  - destruct (_ && _); congruence.
  - intros (c & -> & _)%cast_items_OK. done.
  - intros [= <-]. done.
Qed.

Lemma absent_marker_dec value : {value = VNone} + {value <> VNone}.
Proof. destruct value; (by left) || (by right). Qed.

Lemma populated_store self key value :
  value <> VNone ->
  History.populated self -> History.populated (dict.store key value self).
Proof.
  intros Hvalue Hself k. rewrite get_store.
  destruct (String.eqb key k); [congruence | apply Hself].
Qed.

Lemma populated_remove self key :
  History.populated self -> History.populated (dict.remove key self).
Proof.
  intros Hself k. rewrite get_remove.
  destruct (String.eqb key k); [congruence | apply Hself].
Qed.

Lemma populated_setitem self key value :
  History.populated self ->
  History.populated (snd (PropertySet.__setitem__ key value self)).
Proof.
  intros Hself. destruct (absent_marker_dec value) as [-> | Hvalue].
  - rewrite setitem_None. by apply populated_remove.
  - rewrite setitem_value by done.
    destruct (cast_property value) as [c |] eqn:Hcast; [| done].
    apply populated_store; [| done]. by eapply cast_property_not_None.
Qed.

(** A property that every round of a loop keeps holds when the loop
    ends, whether it ends normally or by an exception. *)
Lemma for_each_invariant {A} (inv : PropertySet.t -> Prop)
    (xs : list A) (body : A -> method PropertySet.t unit) self :
  (forall x self, inv self -> inv (snd (body x self))) ->
  inv self -> inv (snd (for_each xs body self)).
Proof.
  intros Hbody. revert self.
  induction xs as [| x xs IH]; intros self Hself; simpl; [done |].
  unfold bind. specialize (Hbody x self Hself).
  destruct (body x self) as [[[] | e] self']; simpl in *; [by apply IH | done].
Qed.

Lemma populated_perform (c : History.call) self :
  History.populated self -> History.populated (History.perform c self).
Proof.
  intros Hself. destruct c as [key value | key default | iterable kwargs
                              | iterable kwargs | key |]; simpl.
  - by apply populated_setitem.
  - unfold PropertySet.setdefault, PropertySet.__getitem__, dict.setdefault,
      dict.__contains__.
    destruct (dict.get self key) eqn:Hget; [done |].
    destruct default; try done; simpl; by apply populated_store.
  - apply (for_each_invariant History.populated); [| done].
    intros kv self'. apply populated_setitem.
  - unfold PropertySet.replace, bind, dict.clear.
    apply (for_each_invariant History.populated); [| done].
    intros kv self'. apply populated_setitem.
  - unfold PropertyContainer.__delitem__, dict.__delitem__.
    destruct (dict.__contains__ self key); [| done].
    by apply populated_remove.
  - done.
Qed.

Lemma reachable_populated self :
  History.reachable self -> History.populated self.
Proof.
  induction 1 as [| c self Hreach IH]; [done |].
  by apply populated_perform.
Qed.

Lemma well_formed_setitem self key value :
  dict.well_formed self ->
  dict.well_formed (snd (PropertySet.__setitem__ key value self)).
Proof.
  intros Hself. destruct (absent_marker_dec value) as [-> | Hvalue].
  - rewrite setitem_None. by apply well_formed_remove.
  - rewrite setitem_value by done.
    destruct (cast_property value); [by apply well_formed_store | done].
Qed.

Lemma well_formed_assign self history :
  dict.well_formed self -> dict.well_formed (History.assign self history).
Proof.
  revert self. induction history as [| [k v] history IH];
    intros self Hself; simpl; [done |].
  by apply IH, well_formed_setitem.
Qed.

(** Assigning to another key commutes with removing [key]; assigning to
    [key] itself is undone by removing it. *)
Lemma remove_setitem self key k value :
  dict.remove key (snd (PropertySet.__setitem__ k value self))
  = if String.eqb k key then dict.remove key self
    else snd (PropertySet.__setitem__ k value (dict.remove key self)).
Proof.
  destruct (String.eqb_spec k key) as [-> | Hne].
  - destruct (absent_marker_dec value) as [-> | Hvalue].
    + rewrite setitem_None. apply remove_twice.
    + rewrite setitem_value by done.
      destruct (cast_property value); [apply remove_store | done].
  - destruct (absent_marker_dec value) as [-> | Hvalue].
    + rewrite !setitem_None. apply remove_remove.
    + rewrite !setitem_value by done.
      destruct (cast_property value); [| done].
      simpl. by apply remove_store_other.
Qed.

Lemma remove_assign self key history :
  dict.remove key (History.assign self history)
  = History.assign (dict.remove key self) (History.without key history).
Proof.
  revert self. induction history as [| [k v] history IH];
    intros self; simpl; [done |].
  rewrite IH, remove_setitem.
  by destruct (String.eqb k key).
Qed.
(** The state after one assignment, by the outcome. *)
Lemma setitem_outcome self key value outcome after :
  PropertySet.__setitem__ key value self = (outcome, after) ->
  match outcome with
  | OK _ =>
      (value = VNone -> after = dict.remove key self)
      /\ (value <> VNone ->
          exists canonical,
            cast_property value = OK canonical
            /\ after = dict.store key canonical self)
  | Raise e => after = self /\ cast_property value = Raise e
  end.
Proof.
  destruct (absent_marker_dec value) as [-> | Hvalue].
  - rewrite setitem_None. intros [= <- <-]. by split.
  - rewrite setitem_value by done.
    destruct (cast_property value) as [c | e]; intros [= <- <-]; [| done].
    split; [done | eauto].
Qed.

Lemma get_setitem_other self key value k :
  key <> k ->
  dict.get (snd (PropertySet.__setitem__ key value self)) k = dict.get self k.
Proof.
  intros Hne%String.eqb_neq.
  destruct (absent_marker_dec value) as [-> | Hvalue].
  - rewrite setitem_None. simpl. by rewrite get_remove, Hne.
  - rewrite setitem_value by done.
    destruct (cast_property value); [| done].
    simpl. by rewrite get_store, Hne.
Qed.

Abbreviation assign_each entries :=
  (for_each entries (fun kv => PropertySet.__setitem__ (fst kv) (snd kv))).

(** A loop of assignments that ends normally has given every key its
    canonical value and has touched no other key. *)
Lemma assign_each_OK entries self after :
  NoDup (map fst entries) ->
  assign_each entries self = (OK tt, after) ->
  (forall key value,
     In (key, value) entries ->
     (value = VNone -> dict.get after key = None)
     /\ (value <> VNone ->
         exists canonical,
           cast_property value = OK canonical
           /\ dict.get after key = Some canonical))
  /\ (forall k, k ∉ map fst entries -> dict.get after k = dict.get self k).
Proof.
  revert self.
  induction entries as [| [k v] entries IH]; intros self Hkeys Hrun.
  - injection Hrun as <-. split; [by intros ? ? [] | done].
  - simpl in Hrun, Hkeys. unfold bind in Hrun.
    apply NoDup_cons in Hkeys as [Hk Hkeys].
    destruct (PropertySet.__setitem__ k v self) as [[[] | e] mid] eqn:Hset;
      [| discriminate].
    destruct (IH mid Hkeys Hrun) as [Hentries Hothers].
    split.
    + intros key value [[= -> ->] | Hin]; [| by apply Hentries].
      rewrite (Hothers _ Hk).
      destruct (setitem_outcome _ _ _ _ _ Hset) as [Habsent Hcast].
      split.
      * intros ->%Habsent. by rewrite get_remove, String.eqb_refl.
      * intros (c & Hc & ->)%Hcast. exists c.
        by rewrite get_store, String.eqb_refl.
    + intros k' [Hne Hk']%not_elem_of_cons. simpl in Hne.
      rewrite (Hothers _ Hk').
      replace mid with (snd (PropertySet.__setitem__ k v self))
        by (by rewrite Hset).
      by apply get_setitem_other.
Qed.

(** An assignment that raises is one of a value other than None. *)
Lemma setitem_Raise_value self key value e after :
  PropertySet.__setitem__ key value self = (Raise e, after) ->
  value <> VNone.
Proof. intros Hset ->. by rewrite setitem_None in Hset. Qed.

(** A loop of assignments that raises has completed the assignments
    before the failing entry, whose value is not None and does not cast,
    and that entry changed nothing. *)
Lemma assign_each_Raise entries self e after :
  assign_each entries self = (Raise e, after) ->
  exists applied failing pending,
    entries = applied ++ failing :: pending
    /\ snd failing <> VNone
    /\ cast_property (snd failing) = Raise e
    /\ assign_each applied self = (OK tt, after).
Proof.
  revert self.
  induction entries as [| [k v] entries IH]; intros self Hrun;
    [discriminate |].
  simpl in Hrun. unfold bind in Hrun.
  destruct (PropertySet.__setitem__ k v self) as [[[] | e'] mid] eqn:Hset.
  - destruct (IH mid Hrun)
      as (applied & failing & pending & -> & Hvalue & Hfail & Happlied).
    exists ((k, v) :: applied), failing, pending.
    split; [done | split; [done | split; [done |]]].
    simpl. unfold bind. by rewrite Hset.
  - injection Hrun as <- <-.
    pose proof (setitem_Raise_value _ _ _ _ _ Hset) as Hvalue.
    destruct (setitem_outcome _ _ _ _ _ Hset) as [-> Hfail].
    by exists [], (k, v), entries.
Qed.

(** A loop of assignments ends normally only if each value is None or
    casts. *)
Lemma assign_each_OK_castable entries self after :
  assign_each entries self = (OK tt, after) ->
  Forall (fun kv => snd kv = VNone \/ exists c, cast_property (snd kv) = OK c)
    entries.
Proof.
  revert self.
  induction entries as [| [k v] entries IH]; intros self Hrun; [done |].
  simpl in Hrun. unfold bind in Hrun.
  destruct (PropertySet.__setitem__ k v self) as [[[] | e'] mid] eqn:Hset;
    [| discriminate].
  constructor; [| by eapply IH]. simpl.
  destruct (absent_marker_dec v) as [-> | Hvalue]; [by left |].
  destruct (setitem_outcome _ _ _ _ _ Hset) as [_ Hcast].
  destruct (Hcast Hvalue) as (c & Hc & _). right. by exists c.
Qed.

(** Building a dict from the items of a dict gives the same items. *)
Lemma new_items (entries : list (string * pyval)) :
  NoDup (map fst entries) -> dict.new entries [] = entries.
Proof.
  unfold dict.new. rewrite app_nil_r.
  assert (forall pairs acc,
            NoDup (map fst (acc ++ pairs)) ->
            fold_left (fun d kv => dict.store (fst kv) (snd kv) d) pairs acc
            = acc ++ pairs) as Hfold.
  { induction pairs as [| [k v] pairs IH]; intros acc Hkeys; simpl.
    - by rewrite app_nil_r.
    - assert (dict.store k v acc = acc ++ [(k, v)]) as ->.
      { rewrite map_app in Hkeys. apply NoDup_app in Hkeys as (_ & Hdisj & _).
        clear IH. induction acc as [| [k0 v0] acc IHacc]; simpl; [done |].
        destruct (String.eqb_spec k0 k) as [-> | Hne].
        - exfalso. apply (Hdisj k); simpl; apply elem_of_cons; by left.
        - f_equal. apply IHacc. intros x Hx. apply Hdisj. simpl.
          apply elem_of_cons. by right. }
      rewrite IH; rewrite <- app_assoc; done. }
  intros Hkeys. by apply (Hfold entries []).
Qed.

Lemma NoDup_keys_prefix (applied rest : list (string * pyval)) :
  NoDup (map fst (applied ++ rest)) -> NoDup (map fst applied).
Proof. rewrite map_app. by intros (? & _ & _)%NoDup_app. Qed.
(** C7, as the code has it: for every PropertySet and key, setting the
    key to the absent marker raises no error and leaves the PropertySet
    with the key removed and every other entry as it was, in place: the
    containment test for the key is then false, every other key has the
    value it had, and nothing changes at all when the key was absent.
    The PropertySet holds then what any PropertySet holds that never
    contained the key and agrees on the other keys, and the history of
    assignments without those to the key leads to the very same state;
    [__eq__] holds between the two, in either direction, provided [==]
    holds between each value that remains and itself.  And no
    PropertySet that a program can reach maps a key to the absent
    marker. *)
Theorem setitem_absent_marker_removes_key self key :
  PropertySet.__setitem__ key VNone self = (OK tt, dict.remove key self)
  /\ dict.__contains__ (dict.remove key self) key = false
  /\ (forall k,
        dict.get (dict.remove key self) k
        = if String.eqb key k then None else dict.get self k)
  /\ (dict.__contains__ self key = false -> dict.remove key self = self)
  /\ (forall never : PropertySet.t,
        dict.well_formed self -> dict.well_formed never ->
        dict.__contains__ never key = false ->
        (forall k, k <> key -> dict.get never k = dict.get self k) ->
        (forall k, dict.get never k = dict.get (dict.remove key self) k)
        /\ ((forall k v,
               dict.get (dict.remove key self) k = Some v ->
               py_eq v v = true) ->
            PropertySet.__eq__ (dict.remove key self)
              (PropertySet.a_PropertySet never) = OK true
            /\ PropertySet.__eq__ never
                 (PropertySet.a_PropertySet (dict.remove key self))
               = OK true))
  /\ (forall history,
        self = History.assign [] history ->
        dict.remove key self
        = History.assign [] (History.without key history))
  /\ (forall reached k,
        History.reachable reached -> dict.get reached k <> Some VNone).
Proof.
  split; [apply setitem_None |].
  split; [unfold dict.__contains__; by rewrite get_remove, String.eqb_refl |].
  split; [intros k; apply get_remove |].
  split.
  { unfold dict.__contains__. intros Habsent. apply remove_absent.
    by destruct (dict.get self key). }
  split; [| split].
  - intros never Hself Hnever Habsent Hothers.
    assert (forall k, dict.get never k = dict.get (dict.remove key self) k)
      as Hsame.
    { intros k. rewrite get_remove.
      destruct (String.eqb_spec key k) as [<- | Hne].
      - unfold dict.__contains__ in Habsent.
        by destruct (dict.get never key).
      - by apply Hothers. }
    split; [exact Hsame |].
    intros Hrefl. simpl. split; f_equal.
    + apply dict_eq_lookups; [by apply well_formed_remove | done..].
    + apply dict_eq_lookups; [done | by apply well_formed_remove | done |].
      intros k v Hget. apply (Hrefl k v). by rewrite <- Hsame.
  - intros history ->. apply remove_assign.
  - intros reached k Hreached. by apply reachable_populated.
Qed.

(** C5, as the code has it: an assignment [self[key] = value] either
    succeeds, with the key removed for the absent marker and stored with
    the canonical value otherwise, or raises, for a value other than the
    absent marker that does not cast, and leaves the PropertySet
    unchanged.  [update] makes the assignments entry by entry: it either
    succeeds, every key of the mapping then holding its canonical value,
    or raises at the first entry whose value is not the absent marker
    and does not cast, leaving in place the assignments of the entries
    before it, all of which succeeded.  [replace] is [update] on the
    emptied PropertySet. *)
Theorem assignment_outcomes self :
  (forall key value outcome after,
     PropertySet.__setitem__ key value self = (outcome, after) ->
     match outcome with
     | OK _ =>
         (value = VNone -> after = dict.remove key self)
         /\ (value <> VNone ->
             exists canonical,
               cast_property value = OK canonical
               /\ after = dict.store key canonical self)
     | Raise e =>
         after = self /\ value <> VNone /\ cast_property value = Raise e
     end)
  /\ (forall iterable kwargs outcome after,
        PropertySet.update iterable kwargs self = (outcome, after) ->
        match outcome with
        | OK _ =>
            forall key value,
              In (key, value)
                (dict.items (dict.new (PropertySet.or_empty iterable) kwargs)) ->
              (value = VNone -> dict.__contains__ after key = false)
              /\ (value <> VNone ->
                  exists canonical,
                    cast_property value = OK canonical
                    /\ dict.get after key = Some canonical)
        | Raise e =>
            exists applied failing pending,
              dict.items (dict.new (PropertySet.or_empty iterable) kwargs)
              = applied ++ failing :: pending
              /\ Forall (fun kv => snd kv = VNone
                                   \/ exists c, cast_property (snd kv) = OK c)
                   applied
              /\ snd failing <> VNone
              /\ cast_property (snd failing) = Raise e
              /\ PropertySet.update (Some applied) [] self = (OK tt, after)
        end)
  /\ (forall iterable kwargs,
        PropertySet.replace iterable kwargs self
        = PropertySet.update iterable kwargs []).
Proof.
  split.
  { intros key value outcome after Hset.
    pose proof (setitem_outcome _ _ _ _ _ Hset) as Hout.
    destruct outcome as [[] | e]; [done |].
    destruct Hout as [Hafter Hfail].
    split; [done | split; [| done]].
    by eapply setitem_Raise_value. }
  split; [| done].
  intros iterable kwargs outcome after Hrun.
  unfold PropertySet.update, dict.items in *.
  pose proof (well_formed_new (PropertySet.or_empty iterable) kwargs) as Hkeys.
  unfold dict.well_formed in Hkeys.
  destruct outcome as [[] | e].
  - intros key value Hin.
    destruct (assign_each_OK _ _ _ Hkeys Hrun) as [Hentries _].
    destruct (Hentries key value Hin) as [Habsent Hcast].
    split; [| done].
    intros Hvalue. unfold dict.__contains__. by rewrite (Habsent Hvalue).
  - destruct (assign_each_Raise _ _ _ _ Hrun)
      as (applied & failing & pending & Hsplit & Hvalue & Hfail & Happlied).
    exists applied, failing, pending.
    split; [done |].
    split; [by eapply assign_each_OK_castable |].
    split; [done | split; [done |]].
    simpl. rewrite new_items; [done |].
    rewrite Hsplit in Hkeys. by eapply NoDup_keys_prefix.
Qed.

(** What [setdefault] does: the value found under the key when there is
    one; the absent marker, without a store, for an absent default; and
    otherwise the default as it was passed, stored as it was passed. *)
Lemma setdefault_outcome self key default :
  PropertySet.setdefault key default self
  = match dict.get self key with
    | Some existing => (OK existing, self)
    | None =>
        if absent_marker_dec default then (OK VNone, self)
        else (OK default, dict.store key default self)
    end.
Proof.
  unfold PropertySet.setdefault, PropertySet.__getitem__, dict.__contains__,
    dict.setdefault.
  destruct (dict.get self key) eqn:Hget; [done |].
  destruct (absent_marker_dec default) as [-> | Hdefault]; [done |].
  destruct default; try done; by rewrite Hget.
Qed.

(** C3, at a failing input: on an empty PropertySet, [setdefault] with
    the tuple (1, 2) returns and stores the tuple, where the caster gives
    the list [1, 2]; with the integer 2**63 it returns and stores the
    integer, where the caster raises OutOfRange. *)
Theorem setdefault_stores_default_uncast :
  PropertySet.setdefault "key" (tuple [VInt 1; VInt 2]) []
  = (OK (tuple [VInt 1; VInt 2]), [("key"%string, tuple [VInt 1; VInt 2])])
  /\ cast_property (tuple [VInt 1; VInt 2]) = OK (list_ [VInt 1; VInt 2])
  /\ tuple [VInt 1; VInt 2] <> list_ [VInt 1; VInt 2]
  /\ PropertySet.setdefault "key" (VInt (2 ^ 63)) []
     = (OK (VInt (2 ^ 63)), [("key"%string, VInt (2 ^ 63))])
  /\ cast_property (VInt (2 ^ 63)) = Raise OutOfRange.
Proof. repeat split; (reflexivity || discriminate). Qed.

(** When some stored value is neither an integer nor a boolean,
    [__hash__] raises: the loop target is the accumulator, and the
    exclusive-or is applied to the stored value itself. *)
Lemma hash_raises self :
  Exists (fun kv =>
            match snd kv with VInt _ | VBool _ => False | _ => True end) self ->
  PropertySet.__hash__ self
  = Raise (TypeError unsupported_operand_types_for_xor).
Proof.
  unfold PropertySet.__hash__, dict.items. generalize (VInt 0).
  induction self as [| [k v] self IH]; intros acc Hsome;
    [by apply Exists_nil in Hsome |].
  apply Exists_cons in Hsome as [Hv | Hself]; simpl in *.
  - destruct v as [| | | | | [] | [] | | |]; done.
  - destruct v as [| | | | | [] | [] | | |]; simpl; try done; by apply IH.
Qed.

(** When every stored value is an integer, [__hash__] returns what the
    entry visited last alone contributes. *)
Lemma hash_last_entry self key (i : Z) :
  Forall (fun kv => exists j, snd kv = VInt j) self ->
  PropertySet.__hash__ (self ++ [(key, VInt i)])
  = OK (VInt (Z.lxor i (hash (tuple [VStr key; VInt i])))).
Proof.
  unfold PropertySet.__hash__, dict.items. generalize (VInt 0).
  induction self as [| [k v] self IH]; intros acc Hints; [done |].
  apply Forall_cons in Hints as [[j Hj] Hints]. simpl in Hj. subst v.
  simpl. by apply IH.
Qed.

(** [dict.__eq__] does not look at the insertion order. *)
Lemma dict_eq_permutation self other :
  (forall k v, dict.get self k = Some v -> py_eq v v = true) ->
  dict.well_formed self ->
  Permutation self other ->
  dict.__eq__ self other = true.
Proof.
  intros Hrefl Hself Hperm. unfold dict.__eq__.
  rewrite (Permutation_length Hperm), Nat.eqb_refl. simpl.
  apply forallb_forall. intros [k v] Hin. simpl.
  rewrite (get_In other k v).
  - apply (Hrefl k v). by apply get_In.
  - unfold dict.well_formed in *. by rewrite <- Hperm.
  - by eapply Permutation_in.
Qed.

(** C2, at failing inputs: the PropertySets built from the pairs
    ("a", 1) and ("b", 2) in the two orders get as hash what the entry
    visited last alone contributes, its value exclusive-or the hash of
    the entry, which differs with the order; and the hash of a
    PropertySet holding a string raises TypeError. *)
Theorem hash_keeps_the_last_entry_only :
  PropertySet.__init__ (Some [("a"%string, VInt 1); ("b"%string, VInt 2)]) []
  = OK [("a"%string, VInt 1); ("b"%string, VInt 2)]
  /\ PropertySet.__init__ (Some [("b"%string, VInt 2); ("a"%string, VInt 1)]) []
     = OK [("b"%string, VInt 2); ("a"%string, VInt 1)]
  /\ PropertySet.__hash__ [("a"%string, VInt 1); ("b"%string, VInt 2)]
     = OK (VInt (Z.lxor 2 (hash (tuple [VStr "b"; VInt 2]))))
  /\ PropertySet.__hash__ [("b"%string, VInt 2); ("a"%string, VInt 1)]
     = OK (VInt (Z.lxor 1 (hash (tuple [VStr "a"; VInt 1]))))
  /\ PropertySet.__hash__ [("name"%string, VStr "Alice")]
     = Raise (TypeError unsupported_operand_types_for_xor).
Proof. repeat split; reflexivity. Qed.
End PropertySetTheory.

Section PropertySetExamples.
#[local] Existing Instance Python3.runtime.

Lemma setitem_absent_marker_removes_key_witness :
  PropertySet.__setitem__ "name" VNone
    [("name"%string, VStr "Alice"); ("age"%string, VInt 33);
     ("city"%string, VStr "Oslo")]
  = (OK tt, [("age"%string, VInt 33); ("city"%string, VStr "Oslo")])
  /\ dict.__contains__
       [("age"%string, VInt 33); ("city"%string, VStr "Oslo")] "name"
     = false
  /\ PropertySet.__eq__
       [("age"%string, VInt 33); ("city"%string, VStr "Oslo")]
       (PropertySet.a_PropertySet
          [("city"%string, VStr "Oslo"); ("age"%string, VInt 33)])
     = OK true
  /\ PropertySet.__eq__
       [("city"%string, VStr "Oslo"); ("age"%string, VInt 33)]
       (PropertySet.a_PropertySet
          [("age"%string, VInt 33); ("city"%string, VStr "Oslo")])
     = OK true.
Proof.
  destruct (setitem_absent_marker_removes_key (RT := Python3.runtime)
              [("name"%string, VStr "Alice"); ("age"%string, VInt 33);
               ("city"%string, VStr "Oslo")] "name")
    as (Hset & Habsent & _ & _ & Hnever & _).
  split; [exact Hset |]. split; [exact Habsent |].
  destruct (Hnever [("city"%string, VStr "Oslo"); ("age"%string, VInt 33)])
    as [_ Heq].
  - unfold dict.well_formed. simpl.
    repeat (apply NoDup_cons; split;
            [rewrite ?elem_of_cons, elem_of_nil;
             intros H; decompose [or] H; congruence |]).
    apply NoDup_nil_2.
  - unfold dict.well_formed. simpl.
    repeat (apply NoDup_cons; split;
            [rewrite ?elem_of_cons, elem_of_nil;
             intros H; decompose [or] H; congruence |]).
    apply NoDup_nil_2.
  - reflexivity.
  - intros k Hk. cbn [dict.get].
    destruct (String.eqb_spec "name" k) as [<- | _]; [done |].
    destruct (String.eqb_spec "city" k) as [<- | _]; [done |].
    reflexivity.
  - apply Heq. intros k v.
    change (dict.remove "name" _)
      with [("age"%string, VInt 33); ("city"%string, VStr "Oslo")].
    cbn [dict.get].
    destruct (String.eqb "age" k); [by intros [= <-] |].
    destruct (String.eqb "city" k); [by intros [= <-] | done].
Defined.

(** Two PropertySets made by the same assignments, but that the first
    also had a key set and then set to the absent marker, hold the same
    one entry, a NaN cast from a [Decimal], and are not equal for
    [__eq__]. *)
Lemma NaN_entry_unequal_to_set_without_the_key :
  History.assign [] [("x"%string, VDecimal DecNaN); ("k"%string, VInt 1)]
  = [("x"%string, VFloat S754_nan); ("k"%string, VInt 1)]
  /\ PropertySet.__setitem__ "k" VNone
       [("x"%string, VFloat S754_nan); ("k"%string, VInt 1)]
     = (OK tt, [("x"%string, VFloat S754_nan)])
  /\ History.assign [] [("x"%string, VDecimal DecNaN)]
     = [("x"%string, VFloat S754_nan)]
  /\ PropertySet.__eq__ [("x"%string, VFloat S754_nan)]
       (PropertySet.a_PropertySet [("x"%string, VFloat S754_nan)])
     = OK false.
Proof. repeat split; reflexivity. Defined.

(** A failing [update] keeps the assignments made before the failure,
    and a failing [replace] has emptied the PropertySet: neither leaves
    the PropertySet as it was. *)
Lemma update_and_replace_mutate_before_raising :
  PropertySet.update
    (Some [("name"%string, VStr "Alice"); ("age"%string, VObject "object")])
    [] []
  = (Raise InvalidPropertyType, [("name"%string, VStr "Alice")])
  /\ [("name"%string, VStr "Alice")] <> ([] : PropertySet.t)
  /\ PropertySet.replace (Some [("age"%string, VObject "object")]) []
       [("name"%string, VStr "Alice")]
     = (Raise InvalidPropertyType, [])
  /\ ([] : PropertySet.t) <> [("name"%string, VStr "Alice")].
Proof. repeat split; (reflexivity || discriminate). Defined.

(** Two PropertySets with the same pairs in the two orders: equal, and
    of different hash. *)
Lemma equal_PropertySets_of_different_hash :
  PropertySet.__eq__ [("a"%string, VInt 1); ("b"%string, VInt 2)]
    (PropertySet.a_PropertySet [("b"%string, VInt 2); ("a"%string, VInt 1)])
  = OK true
  /\ PropertySet.__hash__ [("a"%string, VInt 1); ("b"%string, VInt 2)]
     <> PropertySet.__hash__ [("b"%string, VInt 2); ("a"%string, VInt 1)].
Proof. split; [reflexivity |]. vm_compute. discriminate. Qed.
End PropertySetExamples.

(** ** GraphView *)
Section GraphViewTheory.
Import GraphView.

Lemma frozenset_iter `{Countable A} (X : gset A) : frozenset (iter X) = X.
Proof. apply list_to_set_elements_L. Qed.

Lemma elem_of_frozenset `{Countable A} (x : A) (iterable : list A) :
  x ∈ frozenset iterable <-> x ∈ iterable.
Proof. apply elem_of_list_to_set. Qed.

Lemma elem_of_set_union `{Countable A} (x : A) (others : list (list A)) :
  x ∈ set_union others <-> exists other, other ∈ others /\ x ∈ other.
Proof.
  unfold set_union.
  assert (forall acc : gset A,
            x ∈ fold_left (fun acc other => acc ∪ frozenset other) others acc
            <-> x ∈ acc \/ exists other, other ∈ others /\ x ∈ other) as Hfold.
  { induction others as [| o others IH]; intros acc; simpl.
    - split; [auto | intros [? | (? & []%elem_of_nil & _)]; done].
    - rewrite IH, elem_of_union, elem_of_frozenset. split.
      + intros [[? | ?] | (other & ? & ?)]; eauto.
        * right. exists o. split; [by left | done].
        * right. exists other. split; [by right | done].
      + intros [? | (other & [-> | ?]%elem_of_cons & ?)]; eauto. }
  rewrite Hfold. split; [intros [[]%elem_of_empty | ?]; done | auto].
Qed.

(** The members of a view are the members it was constructed from. *)
Lemma node_set_init ns rs : node_set (__init__ ns rs) = frozenset ns.
Proof. unfold node_set. simpl. apply frozenset_iter. Qed.

Lemma relationship_set_init ns rs :
  relationship_set (__init__ ns rs) = frozenset rs.
Proof. unfold relationship_set. simpl. apply frozenset_iter. Qed.

Lemma order_init ns rs : order (__init__ ns rs) = base.size (frozenset ns).
Proof. done. Qed.

Lemma size_init ns rs : size (__init__ ns rs) = base.size (frozenset rs).
Proof. done. Qed.

(** The nodes that the endpoints of a set of relationships induce. *)
Lemma elem_of_induced (n : object) (rels : gset relationship) :
  n ∈ set_union (nodes_of (EntitySetView.EntitySetView (iter rels)))
  <-> exists r, r ∈ rels /\ n ∈ endpoints r.
Proof.
  unfold nodes_of. rewrite elem_of_set_union. split.
  - intros (other & (r & -> & Hr)%list_elem_of_fmap & Hn).
    exists r. split; [by apply elem_of_elements |].
    simpl in Hn. by apply elem_of_elements, elem_of_frozenset in Hn.
  - intros (r & Hr & Hn). eexists. split.
    + apply list_elem_of_fmap. exists r. split; [done |].
      by apply elem_of_elements.
    + simpl. by apply elem_of_elements, elem_of_frozenset.
Qed.

Lemma relationship_set_sub A B :
  relationship_set (__sub__ A B) = relationship_set A ∖ relationship_set B.
Proof.
  unfold __sub__. rewrite relationship_set_init. simpl.
  by rewrite frozenset_iter.
Qed.

Lemma relationship_set_xor A B :
  relationship_set (__xor__ A B)
  = (relationship_set A ∖ relationship_set B)
    ∪ (relationship_set B ∖ relationship_set A).
Proof.
  unfold __xor__. rewrite relationship_set_init. simpl.
  by rewrite frozenset_iter.
Qed.

Lemma elem_of_node_set_sub A B n :
  n ∈ node_set (__sub__ A B)
  <-> (n ∈ node_set A /\ n ∉ node_set B)
      \/ exists r, r ∈ relationship_set (__sub__ A B) /\ n ∈ endpoints r.
Proof.
  rewrite relationship_set_sub.
  unfold __sub__. rewrite node_set_init. simpl.
  rewrite !frozenset_iter, elem_of_union, elem_of_difference.
  unfold EntitySetView.__sub__. by rewrite elem_of_induced.
Qed.

Lemma elem_of_node_set_xor A B n :
  n ∈ node_set (__xor__ A B)
  <-> (n ∈ node_set A /\ n ∉ node_set B)
      \/ (n ∈ node_set B /\ n ∉ node_set A)
      \/ exists r, r ∈ relationship_set (__xor__ A B) /\ n ∈ endpoints r.
Proof.
  rewrite relationship_set_xor.
  unfold __xor__. rewrite node_set_init. simpl.
  rewrite !frozenset_iter, !elem_of_union, !elem_of_difference.
  unfold EntitySetView.__xor__. rewrite elem_of_induced.
  unfold node_set, relationship_set. tauto.
Qed.
(** C1: for all GraphViews A and B, [A - B] is a GraphView whose
    relationships are those of A that are not in B, and whose nodes are
    the nodes of A that are not in B together with every endpoint of
    every relationship that is left; in particular, when A holds a
    relationship r with its endpoints a and b, and B holds the node b
    alone and no relationship, [A - B] has the nodes a and b and the
    relationship r. *)
Theorem sub_induces_endpoints :
  (forall A B : GraphView.t,
     relationship_set (__sub__ A B)
     = relationship_set A ∖ relationship_set B
     /\ (forall n,
           n ∈ node_set (__sub__ A B)
           <-> n ∈ node_set A ∖ node_set B
               \/ exists r,
                    r ∈ relationship_set A ∖ relationship_set B
                    /\ n ∈ endpoints r)
     /\ order (__sub__ A B) = base.size (node_set (__sub__ A B))
     /\ size (__sub__ A B) = base.size (relationship_set (__sub__ A B)))
  /\ (forall (A B : GraphView.t) (r : relationship) (a b : object),
        endpoints r = [a; b] ->
        node_set A = {[a; b]} ->
        relationship_set A = {[r]} ->
        node_set B = {[b]} ->
        relationship_set B = ∅ ->
        node_set (__sub__ A B) = {[a; b]}
        /\ relationship_set (__sub__ A B) = {[r]}).
Proof.
  split.
  - intros A B. split; [apply relationship_set_sub |].
    split; [| split].
    + intros n. rewrite elem_of_node_set_sub, relationship_set_sub.
      by rewrite elem_of_difference.
    + unfold __sub__. rewrite node_set_init. apply order_init.
    + unfold __sub__. rewrite relationship_set_init. apply size_init.
  - intros A B r a b Hends HA HrA HB HrB.
    assert (relationship_set (__sub__ A B) = {[r]}) as Hrels.
    { rewrite relationship_set_sub, HrA, HrB. apply set_eq. intros x.
      rewrite elem_of_difference, elem_of_singleton.
      split; [tauto | intros ->; split; [done | apply not_elem_of_empty]]. }
    split; [| done].
    apply set_eq. intros n.
    rewrite elem_of_node_set_sub, Hrels, HA, HB.
    rewrite elem_of_union, !elem_of_singleton. split.
    + intros [[Hn _] | (x & ->%elem_of_singleton & Hn)].
      * done.
      * rewrite Hends in Hn. set_unfold in Hn. tauto.
    + intros Hn. right. exists r. split; [by apply elem_of_singleton |].
      rewrite Hends. set_unfold. tauto.
Qed.

(** C9: for every pair of GraphViews A and B, when [A - B] has no
    relationship its nodes are exactly the nodes of A that are not in B,
    and when the symmetric difference of A and B has no relationship its
    nodes are exactly the symmetric difference of the node sets: the
    union over no relationship is the empty set, and there is nothing
    that can fail. *)
Theorem no_relationship_induces_no_node (A B : GraphView.t) :
  (relationship_set (__sub__ A B) = ∅ ->
   node_set (__sub__ A B) = node_set A ∖ node_set B)
  /\ (relationship_set (__xor__ A B) = ∅ ->
      node_set (__xor__ A B)
      = (node_set A ∖ node_set B) ∪ (node_set B ∖ node_set A))
  /\ set_union (A := object) [] = ∅.
Proof.
  split; [| split; [| done]].
  - intros Hnone. apply set_eq. intros n.
    rewrite elem_of_node_set_sub, Hnone, elem_of_difference.
    split; [intros [? | (r & []%elem_of_empty & _)]; done | auto].
  - intros Hnone. apply set_eq. intros n.
    rewrite elem_of_node_set_xor, Hnone, elem_of_union, !elem_of_difference.
    split; [| tauto].
    intros [? | [? | (r & []%elem_of_empty & _)]]; auto.
Qed.

(** C10: every Relationship constructed with no positional argument or
    with one has the endpoints (None, None): the node set of its graph
    view is the singleton of None, of order 1, not the empty set, and
    both [start] and [end] return None. *)
Theorem Relationship_without_endpoints {RT : Runtime}
    (id : positive) (args : list object) (properties : list (string * pyval))
    (r : relationship) (props : PropertySet.t) (view : GraphView.t) :
  (length args <= 1)%nat ->
  Relationship.__init__ id args properties = OK (r, props, view) ->
  endpoints r = [O_None; O_None]
  /\ node_set view = {[O_None]}
  /\ node_set view <> ∅
  /\ order view = 1%nat
  /\ Relationship.start r = OK O_None
  /\ Relationship.end_ r = OK O_None.
Proof.
  intros Hargs. unfold Relationship.__init__.
  destruct (PropertyContainer.__init__ properties) as [ps | e];
    [| discriminate].
  assert (frozenset [O_None; O_None] = ({[O_None]} : gset object)) as Hnodes.
  { unfold frozenset. simpl. apply set_eq. intros n. set_unfold. tauto. }
  destruct args as [| arg0 [| arg1 args]]; [| | simpl in Hargs; lia];
    intros [= <- <- <-]; cbn [endpoints];
    rewrite node_set_init, order_init, Hnodes, size_singleton;
    (repeat split; try done);
    intros Hempty; by apply (non_empty_singleton_L O_None).
Qed.
End GraphViewTheory.

Section GraphViewExamples.
Import GraphView.

Lemma sub_induces_endpoints_witness :
  Relationship.__init__ (RT := Python3.runtime) 3
    [alice; O_Str "KNOWS"; bob] []
  = OK (knows, [], alice_knows_bob)
  /\ node_set (__sub__ alice_knows_bob bob_alone) = {[alice; bob]}
  /\ relationship_set (__sub__ alice_knows_bob bob_alone) = {[knows]}.
Proof.
  split; [reflexivity |].
  apply (proj2 sub_induces_endpoints alice_knows_bob bob_alone
           knows alice bob).
  - reflexivity.
  - unfold alice_knows_bob. rewrite node_set_init. apply set_eq. intros n.
    unfold frozenset. simpl. set_unfold. tauto.
  - unfold alice_knows_bob. rewrite relationship_set_init.
    apply set_eq. intros r. unfold frozenset. simpl. set_unfold. tauto.
  - unfold bob_alone. rewrite node_set_init. apply set_eq. intros n.
    unfold frozenset. simpl. set_unfold. tauto.
  - unfold bob_alone. rewrite relationship_set_init. reflexivity.
Defined.

Lemma no_relationship_induces_no_node_witness :
  relationship_set (__sub__ alice_knows_bob bob_with_knows) = ∅
  /\ relationship_set (__xor__ alice_knows_bob bob_with_knows) = ∅
  /\ node_set (__sub__ alice_knows_bob bob_with_knows)
     = node_set alice_knows_bob ∖ node_set bob_with_knows
  /\ node_set (__xor__ alice_knows_bob bob_with_knows)
     = (node_set alice_knows_bob ∖ node_set bob_with_knows)
       ∪ (node_set bob_with_knows ∖ node_set alice_knows_bob).
Proof.
  assert (relationship_set (__sub__ alice_knows_bob bob_with_knows) = ∅)
    as Hsub.
  { rewrite relationship_set_sub. unfold alice_knows_bob, bob_with_knows.
    rewrite !relationship_set_init.
    apply set_eq. intros r. unfold frozenset. simpl. set_unfold. tauto. }
  assert (relationship_set (__xor__ alice_knows_bob bob_with_knows) = ∅)
    as Hxor.
  { rewrite relationship_set_xor. unfold alice_knows_bob, bob_with_knows.
    rewrite !relationship_set_init.
    apply set_eq. intros r. unfold frozenset. simpl. set_unfold. tauto. }
  split; [exact Hsub | split; [exact Hxor |]].
  split.
  - exact (proj1 (no_relationship_induces_no_node _ _) Hsub).
  - exact (proj1 (proj2 (no_relationship_induces_no_node _ _)) Hxor).
Defined.

Lemma Relationship_without_endpoints_witness :
  (length [O_Str "KNOWS"] <= 1)%nat
  /\ Relationship.__init__ (RT := Python3.runtime) 4 [O_Str "KNOWS"]
       [("since"%string, VInt 1999)]
     = OK (untyped, [("since"%string, VInt 1999)],
           __init__ [O_None; O_None] [untyped])
  /\ order (__init__ [O_None; O_None] [untyped]) = 1%nat
  /\ Relationship.start untyped = OK O_None
  /\ Relationship.end_ untyped = OK O_None.
Proof.
  assert (length [O_Str "KNOWS"] <= 1)%nat as Hargs by (simpl; lia).
  split; [exact Hargs |]. split; [reflexivity |].
  pose proof (Relationship_without_endpoints (RT := Python3.runtime)
                4 [O_Str "KNOWS"] [("since"%string, VInt 1999)]
                _ _ _ Hargs eq_refl) as (_ & _ & _ & Horder & Hstart & Hend).
  split; [exact Horder | split; [exact Hstart | exact Hend]].
Defined.
End GraphViewExamples.

(** * Further properties of the code *)

(** ** The property caster *)
Section CasterProperties.
Context {RT : Runtime}.

Lemma issubclass_TList (cls : pytype) :
  issubclass TList cls = true -> cls = TList.
Proof. by destruct cls. Qed.

Lemma supported_scalar (c : pyval) :
  is_supported c = true -> type c <> TList -> is_scalar c = true.
Proof.
  unfold is_supported. intros [Hc | Hc]%orb_true_iff Htype; [done |].
  by destruct c as [| | | | | [] items | | | |].
Qed.

Lemma supported_instance_scalar (c : pyval) (cls : pytype) :
  is_supported c = true ->
  cls <> TList -> isinstance c cls = true -> is_scalar c = true.
Proof.
  intros Hc Hcls Hinst. apply supported_scalar; [done |].
  intros Htype. unfold isinstance in Hinst. rewrite Htype in Hinst.
  by apply issubclass_TList in Hinst.
Qed.

Lemma loop_state_supported list_type list_value :
  loop_state list_type list_value -> is_supported (list_ list_value) = true.
Proof.
  intros [Hscalar Htype]. unfold is_supported, list_. simpl.
  apply andb_true_iff. split.
  - apply forallb_forall. intros c Hc.
    by apply (proj1 (Forall_forall _ _) Hscalar), list_elem_of_In.
  - destruct list_type as [cls |]; [| by subst].
    destruct Htype as (_ & first & rest & -> & <- & Hrest). simpl.
    apply forallb_forall. intros c Hc.
    by apply (proj1 (Forall_forall _ _) Hrest), list_elem_of_In.
Qed.

Lemma cast_items_supported cast items :
  Forall (fun item => forall c, cast item = OK c -> is_supported c = true)
    items ->
  forall list_type list_value r,
    cast_items cast items list_type list_value = OK r ->
    loop_state list_type list_value ->
    is_supported r = true.
Proof.
  induction 1 as [| item items Hitem _ IH];
    intros list_type list_value r; simpl.
  - intros [= <-]. apply loop_state_supported.
  - destruct (cast item) as [c |] eqn:Hcast; [| discriminate].
    specialize (Hitem c eq_refl).
    destruct list_type as [cls |].
    + destruct (isinstance c cls) eqn:Hinst; [| discriminate]. simpl.
      intros Hrun [Hscalar (Hcls & first & rest & -> & Hfirst & Hrest)].
      apply (IH _ _ _ Hrun). split.
      * apply Forall_app. split; [done |]. constructor; [| done].
        by eapply supported_instance_scalar.
      * split; [done |]. exists first, (rest ++ [c]).
        split; [done | split; [done |]].
        apply Forall_app. split; [done | by constructor].
    + destruct (pytype_eqb (type c) TList) eqn:Hlist; [discriminate |].
      intros Hrun [_ ->]. apply (IH _ _ _ Hrun).
      assert (type c <> TList) as Htype.
      { intros Heq. apply pytype_eqb_eq in Heq. congruence. }
      split.
      * constructor; [by apply supported_scalar | done].
      * split; [done |]. by exists c, [].
Qed.

Lemma cast_supported (v c : pyval) :
  cast_property v = OK c -> is_supported c = true.
Proof.
  revert c.
  induction v as [| b | x | i | s | kind items IH | t | d | real imag | cn]
    using pyval_items_ind; intros c Hc; simpl in Hc; try discriminate.
  - by injection Hc as <-.
  - by injection Hc as <-.
  - destruct ((JAVA_INTEGER_MIN_VALUE <=? i) && (i <=? JAVA_INTEGER_MAX_VALUE))
      eqn:Hrange; [| discriminate].
    injection Hc as <-. unfold is_supported. simpl. by rewrite Hrange.
  - by injection Hc as <-.
  - eapply cast_items_supported; [exact IH | exact Hc |].
    split; [constructor | done].
  - by injection Hc as <-.
  - by injection Hc as <-.
  - by injection Hc as <-.
Qed.

(** X1: whatever the caster returns is a value that Neo4j supports: a
    boolean, a float, an integer of the Java range, a string, or a list
    of such values, never a nested list, whose items are all instances of
    the class of the first item. *)
Theorem cast_property_returns_supported (v c : pyval) :
  cast_property v = OK c -> is_supported c = true.
Proof. apply cast_supported. Qed.

(** X2: a successful cast of a sequence gives a list with as many items
    as the sequence, the item at each position being the canonical form
    of the item of the sequence at that position. *)
Theorem cast_property_keeps_order_and_count
    (kind : seqkind) (items : list pyval) (c : pyval) :
  cast_property (VSeq kind items) = OK c ->
  exists canonical,
    c = list_ canonical
    /\ length canonical = length items
    /\ forall (i : nat) (item : pyval),
         items !! i = Some item ->
         exists ci, canonical !! i = Some ci /\ cast_property item = OK ci.
Proof.
  simpl. intros (canonical & -> & Hall)%cast_items_OK.
  exists canonical. split; [done |].
  split; [symmetry; by eapply Forall2_length |].
  intros i item Hitem.
  destruct (Forall2_lookup_l _ _ _ _ _ Hall Hitem) as (ci & Hci & Hcast).
  by exists ci.
Qed.

Lemma cast_items_numbers cast rest list_value :
  (forall i, is_scalar (VInt i) = true -> cast (VInt i) = OK (VInt i)) ->
  (forall b, cast (VBool b) = OK (VBool b)) ->
  Forall (fun v => (exists i, v = VInt i /\ is_scalar v = true)
                   \/ exists b, v = VBool b) rest ->
  cast_items cast rest (Some TInt) list_value = OK (list_ (list_value ++ rest)).
Proof.
  intros Hint Hbool Hrest. revert list_value.
  induction Hrest as [| v rest Hv _ IH]; intros list_value; simpl.
  - by rewrite app_nil_r.
  - destruct Hv as [(i & -> & Hi) | (b & ->)].
    + rewrite (Hint i Hi). simpl. rewrite IH. by rewrite <- app_assoc.
    + rewrite Hbool. simpl. rewrite IH. by rewrite <- app_assoc.
Qed.

(** X3: the class test of the loop is [isinstance], and [bool] derives
    from [int]: a sequence that starts with an integer goes through with
    booleans among its integers, while a sequence that starts with a
    boolean is refused with MixedListType at an integer in second place. *)
Theorem int_list_takes_bool_but_bool_list_refuses_int
    (kind : seqkind) (i : Z) (b : bool) (rest : list pyval) :
  is_scalar (VInt i) = true ->
  Forall (fun v => (exists j, v = VInt j /\ is_scalar v = true)
                   \/ exists b', v = VBool b') rest ->
  cast_property (VSeq kind (VInt i :: rest)) = OK (list_ (VInt i :: rest))
  /\ cast_property (VSeq kind (VBool b :: VInt i :: rest))
     = Raise MixedListType.
Proof.
  intros Hi Hrest. simpl in Hi. split.
  - simpl. rewrite Hi. simpl.
    apply (cast_items_numbers cast_property rest [VInt i]); [| done | done].
    intros j Hj. simpl in *. by rewrite Hj.
  - simpl. by rewrite Hi.
Qed.

Lemma cast_items_app_OK cast before list_type list_value r :
  cast_items cast before list_type list_value = OK r ->
  exists list_type' list_value',
    forall rest,
      cast_items cast (before ++ rest) list_type list_value
      = cast_items cast rest list_type' list_value'.
Proof.
  revert list_type list_value.
  induction before as [| item before IH]; intros list_type list_value; simpl.
  - intros _. by exists list_type, list_value.
  - destruct (cast item) as [c |]; [| discriminate].
    destruct list_type as [cls |].
    + destruct (negb (isinstance c cls)); [discriminate | apply IH].
    + destruct (pytype_eqb (type c) TList); [discriminate | apply IH].
Qed.

Lemma cast_items_app_Raise cast before rest list_type list_value e :
  cast_items cast before list_type list_value = Raise e ->
  cast_items cast (before ++ rest) list_type list_value = Raise e.
Proof.
  revert list_type list_value.
  induction before as [| item before IH]; intros list_type list_value; simpl;
    [discriminate |].
  destruct (cast item) as [c |]; [| done].
  destruct list_type as [cls |].
  - destruct (negb (isinstance c cls)); [done | apply IH].
  - destruct (pytype_eqb (type c) TList); [done | apply IH].
Qed.

(** X4: the first failure decides.  When a sequence is refused, every
    sequence that extends it is refused with the same error; and when a
    sequence is accepted, appending an item that the caster refuses, and
    anything after it, raises the error of that item: OutOfRange for an
    integer out of range, InvalidPropertyType for None, and so on. *)
Theorem first_failure_decides
    (kind : seqkind) (before after : list pyval) (item : pyval) :
  (forall e,
     cast_property (VSeq kind before) = Raise e ->
     cast_property (VSeq kind (before ++ after)) = Raise e)
  /\ (forall c e,
        cast_property (VSeq kind before) = OK c ->
        cast_property item = Raise e ->
        cast_property (VSeq kind (before ++ item :: after)) = Raise e).
Proof.
  split; simpl.
  - intros e. apply cast_items_app_Raise.
  - intros c e (list_type' & list_value' & ->)%cast_items_app_OK Hitem.
    simpl. by rewrite Hitem.
Qed.
End CasterProperties.

Section CasterPropertiesExamples.
#[local] Existing Instance Python3.runtime.

Lemma cast_property_returns_supported_witness :
  cast_property (tuple [VDecimal (DecFinite false 15 (-1)); VFloat S754_nan])
  = OK (list_ [VFloat (S754_finite false 6755399441055744 (-52));
               VFloat S754_nan])
  /\ is_supported
       (list_ [VFloat (S754_finite false 6755399441055744 (-52));
               VFloat S754_nan]) = true.
Proof.
  split; [reflexivity |].
  apply (cast_property_returns_supported (RT := Python3.runtime)
           (tuple [VDecimal (DecFinite false 15 (-1)); VFloat S754_nan])).
  reflexivity.
Defined.

Lemma cast_property_keeps_order_and_count_witness :
  cast_property (VSeq KSet [VStr "a"; VTemporal (Date 2015 1 2)])
  = OK (list_ [VStr "a"; VStr "2015-01-02"])
  /\ exists canonical,
       list_ [VStr "a"; VStr "2015-01-02"] = list_ canonical
       /\ length canonical = 2%nat
       /\ forall (i : nat) (item : pyval),
            [VStr "a"; VTemporal (Date 2015 1 2)] !! i = Some item ->
            exists ci, canonical !! i = Some ci /\ cast_property item = OK ci.
Proof.
  split; [reflexivity |].
  apply (cast_property_keeps_order_and_count (RT := Python3.runtime) KSet
           [VStr "a"; VTemporal (Date 2015 1 2)]).
  reflexivity.
Defined.

Lemma int_list_takes_bool_but_bool_list_refuses_int_witness :
  is_scalar (VInt 1) = true
  /\ cast_property (list_ [VInt 1; VBool true; VInt 3])
     = OK (list_ [VInt 1; VBool true; VInt 3])
  /\ cast_property (list_ [VBool false; VInt 1; VBool true; VInt 3])
     = Raise MixedListType.
Proof.
  split; [reflexivity |].
  apply (int_list_takes_bool_but_bool_list_refuses_int
           (RT := Python3.runtime) KList 1 false [VBool true; VInt 3]).
  - reflexivity.
  - constructor; [right; by eexists |].
    constructor; [left; by eexists | constructor].
Defined.
End CasterPropertiesExamples.

(** ** PropertySet and PropertyContainer *)
Section PropertySetProperties.
Context {RT : Runtime}.
Implicit Types (self : PropertySet.t) (key k : string) (value : pyval).

Lemma get_app self (other : dict.t) k :
  dict.get (self ++ other) k
  = match dict.get self k with
    | Some v => Some v
    | None => dict.get other k
    end.
Proof.
  induction self as [| [k0 v0] self IH]; simpl; [done |].
  by destruct (String.eqb k0 k).
Qed.

Lemma store_fresh self k v :
  dict.get self k = None -> dict.store k v self = self ++ [(k, v)].
Proof.
  induction self as [| [k0 v0] self IH]; simpl; [done |].
  destruct (String.eqb k0 k); [done |].
  intros Hget. by rewrite IH.
Qed.

(** A dict built from pairs binds each key to the value of its last
    pair. *)
Lemma get_fold_store (pairs : list (string * pyval)) (acc : dict.t) k :
  dict.get (fold_left (fun d kv => dict.store (fst kv) (snd kv) d) pairs acc) k
  = match dict.get (rev pairs) k with
    | Some v => Some v
    | None => dict.get acc k
    end.
Proof.
  revert acc. induction pairs as [| [k0 v0] pairs IH]; intros acc; simpl;
    [done |].
  rewrite IH, get_app, get_store. simpl.
  destruct (dict.get (rev pairs) k); [done |].
  by destruct (String.eqb k0 k).
Qed.

Lemma get_new (iterable kwargs : list (string * pyval)) k :
  dict.get (dict.new iterable kwargs) k = dict.get (rev (iterable ++ kwargs)) k.
Proof.
  unfold dict.new. rewrite get_fold_store.
  by destruct (dict.get (rev (iterable ++ kwargs)) k).
Qed.

Lemma for_each_app {A} (xs ys : list A)
    (body : A -> method PropertySet.t unit) self :
  for_each (xs ++ ys) body self
  = match for_each xs body self with
    | (OK _, mid) => for_each ys body mid
    | (Raise e, mid) => (Raise e, mid)
    end.
Proof.
  revert self. induction xs as [| x xs IH]; intros self; simpl; [done |].
  unfold bind. destruct (body x self) as [[[] | e] mid]; [apply IH | done].
Qed.

(** Where a successful [update] leaves each key. *)
Lemma update_OK_lookup self iterable kwargs after k :
  PropertySet.update iterable kwargs self = (OK tt, after) ->
  match dict.get (rev (PropertySet.or_empty iterable ++ kwargs)) k with
  | Some value =>
      (value = VNone -> dict.get after k = None)
      /\ (value <> VNone ->
          exists canonical,
            cast_property value = OK canonical
            /\ dict.get after k = Some canonical)
  | None => dict.get after k = dict.get self k
  end.
Proof.
  unfold PropertySet.update, dict.items. intros Hrun.
  pose proof (well_formed_new (PropertySet.or_empty iterable) kwargs) as Hkeys.
  destruct (assign_each_OK _ _ _ Hkeys Hrun) as [Hentries Hothers].
  rewrite <- get_new.
  destruct (dict.get (dict.new (PropertySet.or_empty iterable) kwargs) k)
    as [value |] eqn:Hget.
  - by apply Hentries, get_Some_In.
  - by apply Hothers, get_None_keys.
Qed.

Lemma supported_setitem self key value :
  supported_store self ->
  supported_store (snd (PropertySet.__setitem__ key value self)).
Proof.
  intros [Hkeys Hvalues]. split; [by apply well_formed_setitem |].
  intros k v.
  destruct (PropertySet.__setitem__ key value self) as [outcome after] eqn:Hset.
  pose proof (setitem_outcome _ _ _ _ _ Hset) as Hout. simpl.
  destruct outcome as [[] | e].
  - destruct Hout as [Habsent Hcast].
    destruct (absent_marker_dec value) as [Hvalue | Hvalue].
    + rewrite (Habsent Hvalue), get_remove.
      destruct (String.eqb key k); [done | apply Hvalues].
    + destruct (Hcast Hvalue) as (c & Hc & ->). rewrite get_store.
      destruct (String.eqb key k); [| apply Hvalues].
      intros [= <-]. by eapply cast_supported.
  - destruct Hout as [-> _]. apply Hvalues.
Qed.

Lemma supported_empty : supported_store [].
Proof. split; [apply NoDup_nil_2 | done]. Qed.

Lemma supported_update self iterable kwargs :
  supported_store self ->
  supported_store (snd (PropertySet.update iterable kwargs self)).
Proof.
  intros Hself. apply (for_each_invariant supported_store); [| done].
  intros kv self'. apply supported_setitem.
Qed.

(** X5: an assignment followed by a lookup.  After [self[key] = value]
    for a value other than None that the caster accepts, [self[key]] is
    the canonical form of the value and [key in self] holds; the lookup
    of any other key gives what it gave before; and a lookup changes
    nothing and gives None, without an error, for a key that is not
    there. *)
Theorem setitem_then_getitem self key value canonical :
  value <> VNone ->
  cast_property value = OK canonical ->
  exists after,
    PropertySet.__setitem__ key value self = (OK tt, after)
    /\ PropertySet.__getitem__ key after = (OK canonical, after)
    /\ dict.__contains__ after key = true
    /\ (forall k, k <> key ->
          fst (PropertySet.__getitem__ k after)
          = fst (PropertySet.__getitem__ k self))
    /\ (forall k, dict.__contains__ after k = false ->
          PropertySet.__getitem__ k after = (OK VNone, after)).
Proof.
  intros Hvalue Hcast. exists (dict.store key canonical self).
  split; [by rewrite setitem_value, Hcast |].
  unfold PropertySet.__getitem__, dict.__contains__.
  rewrite get_store, String.eqb_refl.
  split; [done | split; [done |]].
  split.
  - intros k Hk. simpl. rewrite get_store.
    apply not_eq_sym, String.eqb_neq in Hk. by rewrite Hk.
  - intros k. by destruct (dict.get (dict.store key canonical self) k).
Qed.

(** X6: [update] merges, and the last binding wins.  After a successful
    [update(iterable, **kwargs)], a key named by the call holds the
    canonical form of the value of its last binding, the keyword arguments
    counting after the pairs of the iterable, or is absent when that value
    is None; a key that the call does not name is as it was. *)
Theorem update_last_binding_wins self iterable kwargs after :
  PropertySet.update iterable kwargs self = (OK tt, after) ->
  forall k,
    match dict.get (rev (PropertySet.or_empty iterable ++ kwargs)) k with
    | Some value =>
        (value = VNone -> dict.get after k = None)
        /\ (value <> VNone ->
            exists canonical,
              cast_property value = OK canonical
              /\ dict.get after k = Some canonical)
    | None => dict.get after k = dict.get self k
    end.
Proof. intros Hrun k. by apply update_OK_lookup. Qed.


(** X8: equality does not look at the insertion order.  Two PropertySets
    that hold the same entries, inserted in different orders, are equal
    for [__eq__] and not different for [__ne__], provided [==] holds
    between each stored value and itself. *)
Theorem eq_ignores_insertion_order self (other : PropertySet.t) :
  (forall key v, dict.get self key = Some v -> py_eq v v = true) ->
  dict.well_formed self ->
  Permutation self other ->
  PropertySet.__eq__ self (PropertySet.a_PropertySet other) = OK true
  /\ PropertySet.__ne__ self (PropertySet.a_PropertySet other) = OK false.
Proof.
  intros Hrefl Hself Hperm. unfold PropertySet.__ne__. simpl.
  by rewrite (dict_eq_permutation self other Hrefl Hself Hperm).
Qed.

(** X9: None in a plain mapping counts as no entry.  [PropertySet(other)]
    for pairs extended with a fresh key bound to None is the PropertySet
    of the pairs alone, with the same outcome if a value does not cast;
    so comparing a PropertySet with a plain mapping, which is converted
    first, does not see such an entry. *)
Theorem None_entry_of_mapping_is_no_entry
    self (pairs : list (string * pyval)) key :
  key ∉ map fst pairs ->
  PropertySet.__init__ (Some (pairs ++ [(key, VNone)])) []
  = PropertySet.__init__ (Some pairs) []
  /\ PropertySet.__eq__ self
       (PropertySet.a_mapping (Some (pairs ++ [(key, VNone)])))
     = PropertySet.__eq__ self (PropertySet.a_mapping (Some pairs)).
Proof.
  intros Hfresh.
  assert (PropertySet.__init__ (Some (pairs ++ [(key, VNone)])) []
          = PropertySet.__init__ (Some pairs) []) as Hinit.
  { assert (dict.get (dict.new pairs []) key = None) as Hnew.
    { rewrite get_new, app_nil_r. apply get_None_keys.
      rewrite map_rev. intros Hin. apply Hfresh.
      apply list_elem_of_In, in_rev. by apply list_elem_of_In. }
    unfold PropertySet.__init__, PropertySet.update, dict.items. simpl.
    assert (dict.new (pairs ++ [(key, VNone)]) []
            = dict.new pairs [] ++ [(key, VNone)]) as ->.
    { unfold dict.new in *. rewrite !app_nil_r, fold_left_app. simpl.
      rewrite app_nil_r in Hnew. by apply store_fresh. }
    rewrite for_each_app.
    destruct (for_each (dict.new pairs [])
                (fun kv => PropertySet.__setitem__ (fst kv) (snd kv)) [])
      as [[[] | e] mid] eqn:Hrun; [| done].
    change (for_each [(key, VNone)] _ mid)
      with (bind (PropertySet.__setitem__ key VNone)
              (fun _ => ret tt) mid).
    unfold bind, ret. rewrite setitem_None.
    rewrite remove_absent; [done |].
    destruct (assign_each_OK _ _ _ (well_formed_new pairs []) Hrun)
      as [_ Hothers].
    rewrite Hothers; [done | by apply get_None_keys]. }
  split; [done |]. simpl. by rewrite Hinit.
Qed.

(** X10: deleting against assigning None.  [del container[key]] raises
    KeyError, changing nothing, when the key is absent, where
    [container[key] = None] passes in silence; when the key is present
    the two do the same, and the key is absent afterwards. *)
Theorem delitem_raises_where_None_passes self key :
  if PropertyContainer.__contains__ self key
  then
    PropertyContainer.__delitem__ key self
    = PropertyContainer.__setitem__ key VNone self
    /\ PropertyContainer.__contains__
         (snd (PropertyContainer.__delitem__ key self)) key = false
  else
    PropertyContainer.__delitem__ key self = (Raise (KeyError key), self)
    /\ PropertyContainer.__setitem__ key VNone self = (OK tt, self).
Proof.
  unfold PropertyContainer.__contains__, PropertyContainer.__delitem__,
    PropertyContainer.__setitem__, dict.__delitem__.
  rewrite setitem_None.
  destruct (dict.__contains__ self key) eqn:Hin.
  - split; [done |]. simpl. unfold dict.__contains__.
    by rewrite get_remove, String.eqb_refl.
  - split; [done |]. rewrite remove_absent; [done |].
    unfold dict.__contains__ in Hin. by destruct (dict.get self key).
Qed.

(** X11: what the assigning methods keep.  From a PropertySet in which
    each key is bound once and every value is one that Neo4j supports,
    [__setitem__], [update], [replace] and the [__delitem__] of the
    container lead to such a PropertySet again, whether they return or
    raise; and a PropertySet that the constructor returns is one. *)
Theorem assignments_keep_store_supported self :
  supported_store self ->
  (forall key value,
     supported_store (snd (PropertySet.__setitem__ key value self)))
  /\ (forall iterable kwargs,
        supported_store (snd (PropertySet.update iterable kwargs self)))
  /\ (forall iterable kwargs,
        supported_store (snd (PropertySet.replace iterable kwargs self)))
  /\ (forall key,
        supported_store (snd (PropertyContainer.__delitem__ key self)))
  /\ (forall iterable kwargs created,
        PropertySet.__init__ iterable kwargs = OK created ->
        supported_store created).
Proof.
  intros Hself.
  split; [intros key value; by apply supported_setitem |].
  split; [intros iterable kwargs; by apply supported_update |].
  split; [| split].
  - intros iterable kwargs. unfold PropertySet.replace, bind, dict.clear.
    apply supported_update, supported_empty.
  - intros key. unfold PropertyContainer.__delitem__, dict.__delitem__.
    destruct (dict.__contains__ self key); [| done]. simpl.
    destruct Hself as [Hkeys Hvalues].
    split; [by apply well_formed_remove |].
    intros k v. rewrite get_remove.
    destruct (String.eqb key k); [done | apply Hvalues].
  - intros iterable kwargs created. unfold PropertySet.__init__.
    pose proof (supported_update [] iterable kwargs supported_empty) as Hnew.
    destruct (PropertySet.update iterable kwargs []) as [[[] | e] after];
      [| discriminate].
    by intros [= <-].
Qed.
End PropertySetProperties.

Section PropertySetPropertiesExamples.
#[local] Existing Instance Python3.runtime.

Lemma setitem_then_getitem_witness :
  tuple [VInt 1; VInt 2] <> VNone
  /\ cast_property (tuple [VInt 1; VInt 2]) = OK (list_ [VInt 1; VInt 2])
  /\ exists after,
       PropertySet.__setitem__ "pair" (tuple [VInt 1; VInt 2])
         [("age"%string, VInt 33)]
       = (OK tt, after)
       /\ PropertySet.__getitem__ "pair" after
          = (OK (list_ [VInt 1; VInt 2]), after)
       /\ dict.__contains__ after "pair" = true.
Proof.
  split; [discriminate |]. split; [reflexivity |].
  destruct (setitem_then_getitem (RT := Python3.runtime)
              [("age"%string, VInt 33)] "pair" (tuple [VInt 1; VInt 2])
              (list_ [VInt 1; VInt 2]) ltac:(discriminate) eq_refl)
    as (after & Hset & Hget & Hin & _).
  by exists after.
Defined.

Lemma update_last_binding_wins_witness :
  PropertySet.update
    (Some [("a"%string, VInt 1); ("b"%string, VInt 2); ("a"%string, VNone)])
    [("b"%string, VInt 3)] [("c"%string, VInt 0); ("a"%string, VInt 9)]
  = (OK tt, [("c"%string, VInt 0); ("b"%string, VInt 3)])
  /\ (VInt 3 <> VNone ->
      exists canonical,
        cast_property (VInt 3) = OK canonical
        /\ dict.get [("c"%string, VInt 0); ("b"%string, VInt 3)] "b"
           = Some canonical).
Proof.
  split; [reflexivity |].
  exact (proj2 (update_last_binding_wins (RT := Python3.runtime)
                  [("c"%string, VInt 0); ("a"%string, VInt 9)]
                  (Some [("a"%string, VInt 1); ("b"%string, VInt 2);
                         ("a"%string, VNone)])
                  [("b"%string, VInt 3)]
                  [("c"%string, VInt 0); ("b"%string, VInt 3)]
                  eq_refl "b"%string)).
Defined.


Lemma eq_ignores_insertion_order_witness :
  (forall key v,
     dict.get [("a"%string, VInt 1); ("b"%string, VStr "x")] key = Some v ->
     py_eq v v = true)
  /\ dict.well_formed [("a"%string, VInt 1); ("b"%string, VStr "x")]
  /\ Permutation [("a"%string, VInt 1); ("b"%string, VStr "x")]
       [("b"%string, VStr "x"); ("a"%string, VInt 1)]
  /\ PropertySet.__eq__ [("a"%string, VInt 1); ("b"%string, VStr "x")]
       (PropertySet.a_PropertySet
          [("b"%string, VStr "x"); ("a"%string, VInt 1)])
     = OK true
  /\ PropertySet.__ne__ [("a"%string, VInt 1); ("b"%string, VStr "x")]
       (PropertySet.a_PropertySet
          [("b"%string, VStr "x"); ("a"%string, VInt 1)])
     = OK false.
Proof.
  assert (dict.well_formed [("a"%string, VInt 1); ("b"%string, VStr "x")])
    as Hkeys.
  { unfold dict.well_formed. simpl. apply NoDup_cons. split.
    - intros [Heq | []%elem_of_nil]%elem_of_cons. discriminate.
    - apply NoDup_singleton. }
  assert (Permutation [("a"%string, VInt 1); ("b"%string, VStr "x")]
            [("b"%string, VStr "x"); ("a"%string, VInt 1)]) as Hperm
    by apply perm_swap.
  assert (forall key v,
            dict.get [("a"%string, VInt 1); ("b"%string, VStr "x")] key
            = Some v ->
            py_eq v v = true) as Hrefl.
  { intros key v. cbn [dict.get].
    destruct (String.eqb "a" key); [by intros [= <-] |].
    destruct (String.eqb "b" key); [by intros [= <-] | done]. }
  split; [exact Hrefl |]. split; [exact Hkeys |]. split; [exact Hperm |].
  exact (eq_ignores_insertion_order (RT := Python3.runtime) _ _
           Hrefl Hkeys Hperm).
Defined.

Lemma None_entry_of_mapping_is_no_entry_witness :
  ("b"%string ∉ map fst [("a"%string, VInt 1)])
  /\ PropertySet.__init__
       (Some ([("a"%string, VInt 1)] ++ [("b"%string, VNone)])) []
     = PropertySet.__init__ (Some [("a"%string, VInt 1)]) []
  /\ PropertySet.__eq__ [("a"%string, VInt 1)]
       (PropertySet.a_mapping
          (Some ([("a"%string, VInt 1)] ++ [("b"%string, VNone)])))
     = PropertySet.__eq__ [("a"%string, VInt 1)]
         (PropertySet.a_mapping (Some [("a"%string, VInt 1)])).
Proof.
  assert ("b"%string ∉ map fst [("a"%string, VInt 1)]) as Hfresh
    by (intros [Heq | []%elem_of_nil]%elem_of_cons; discriminate).
  split; [exact Hfresh |].
  exact (None_entry_of_mapping_is_no_entry (RT := Python3.runtime)
           [("a"%string, VInt 1)] [("a"%string, VInt 1)] "b" Hfresh).
Defined.

Lemma assignments_keep_store_supported_witness :
  supported_store []
  /\ supported_store
       (snd (PropertySet.update
               (Some [("a"%string, tuple [VInt 1]); ("b"%string, VNone)])
               [] [])).
Proof.
  split; [exact supported_empty |].
  exact (proj1 (proj2 (assignments_keep_store_supported
                         (RT := Python3.runtime) [] supported_empty))
           (Some [("a"%string, tuple [VInt 1]); ("b"%string, VNone)]) []).
Defined.
End PropertySetPropertiesExamples.

(** ** EntitySetView *)
Section EntitySetViewProperties.
Context `{Countable A}.
Implicit Types (self : EntitySetView.t A) (other : list A) (x : A).

Lemma elem_of_iter (X : gset A) x : x ∈ iter X <-> x ∈ X.
Proof. apply elem_of_elements. Qed.

(** X12: the four operators on members.  The result of [|] holds what
    either operand holds, of [&] what both hold, of [-] what the left
    operand holds and the right one does not, of [^] what exactly one of
    them holds; and no result holds a member twice, whatever repeats the
    operands had. *)
Theorem EntitySetView_operators self other x :
  (x ∈ EntitySetView.__iter__ (EntitySetView.__or__ self other)
   <-> x ∈ EntitySetView.__iter__ self \/ x ∈ other)
  /\ (x ∈ EntitySetView.__iter__ (EntitySetView.__and__ self other)
      <-> x ∈ EntitySetView.__iter__ self /\ x ∈ other)
  /\ (x ∈ EntitySetView.__iter__ (EntitySetView.__sub__ self other)
      <-> x ∈ EntitySetView.__iter__ self /\ x ∉ other)
  /\ (x ∈ EntitySetView.__iter__ (EntitySetView.__xor__ self other)
      <-> (x ∈ EntitySetView.__iter__ self /\ x ∉ other)
          \/ (x ∈ other /\ x ∉ EntitySetView.__iter__ self))
  /\ NoDup (EntitySetView.__iter__ (EntitySetView.__or__ self other))
  /\ NoDup (EntitySetView.__iter__ (EntitySetView.__and__ self other))
  /\ NoDup (EntitySetView.__iter__ (EntitySetView.__sub__ self other))
  /\ NoDup (EntitySetView.__iter__ (EntitySetView.__xor__ self other)).
Proof.
  unfold EntitySetView.__or__, EntitySetView.__and__, EntitySetView.__sub__,
    EntitySetView.__xor__. simpl.
  rewrite !elem_of_iter, !elem_of_union, elem_of_intersection,
    !elem_of_difference, !elem_of_frozenset.
  repeat split; try tauto; apply NoDup_elements.
Qed.

(** X13: equality is equality of the members.  [__eq__] holds exactly
    when the two collections have the same members, in whatever order
    and however often; [__len__], which counts the wrapped collection,
    may then still differ: a collection with a member added once more is
    equal to the collection and one longer. *)
Theorem EntitySetView_eq_members self other :
  (EntitySetView.__eq__ self other = true
   <-> forall x, x ∈ EntitySetView.__iter__ self <-> x ∈ other)
  /\ (forall x,
        x ∈ other ->
        EntitySetView.__eq__ (EntitySetView.EntitySetView (x :: other)) other
        = true
        /\ EntitySetView.__len__ (EntitySetView.EntitySetView (x :: other))
           = S (EntitySetView.__len__ (EntitySetView.EntitySetView other))).
Proof.
  assert (forall (s : EntitySetView.t A) l,
            EntitySetView.__eq__ s l = true
            <-> forall x, x ∈ EntitySetView.__iter__ s <-> x ∈ l) as Heq.
  { intros s l. unfold EntitySetView.__eq__.
    rewrite bool_decide_eq_true, set_eq.
    by setoid_rewrite elem_of_frozenset. }
  split; [apply Heq |].
  intros x Hx. split; [| done].
  apply Heq. intros y. simpl. rewrite elem_of_cons.
  split; [by intros [-> | ?] | auto].
Qed.
End EntitySetViewProperties.

(** ** GraphView *)
Section GraphViewProperties.
Import GraphView.
Implicit Types (A B C : GraphView.t).

Lemma GraphView_eq_spec A B :
  __eq__ A B = true
  <-> node_set A = node_set B /\ relationship_set A = relationship_set B.
Proof.
  unfold __eq__, EntitySetView.__eq__, node_set, relationship_set.
  by rewrite andb_true_iff, !bool_decide_eq_true.
Qed.

Lemma node_set_or A B : node_set (__or__ A B) = node_set A ∪ node_set B.
Proof.
  unfold __or__. rewrite node_set_init. simpl. by rewrite frozenset_iter.
Qed.

Lemma relationship_set_or A B :
  relationship_set (__or__ A B) = relationship_set A ∪ relationship_set B.
Proof.
  unfold __or__. rewrite relationship_set_init. simpl.
  by rewrite frozenset_iter.
Qed.

Lemma node_set_and A B : node_set (__and__ A B) = node_set A ∩ node_set B.
Proof.
  unfold __and__. rewrite node_set_init. simpl. by rewrite frozenset_iter.
Qed.

Lemma relationship_set_and A B :
  relationship_set (__and__ A B) = relationship_set A ∩ relationship_set B.
Proof.
  unfold __and__. rewrite relationship_set_init. simpl.
  by rewrite frozenset_iter.
Qed.

Lemma size_frozenset_le `{Countable T} (l : list T) :
  (base.size (frozenset l) <= length l)%nat.
Proof.
  apply submseteq_length, NoDup_submseteq; [apply NoDup_elements |].
  intros x. by rewrite elem_of_elements, elem_of_frozenset.
Qed.

(** X14: [order] and [size] count distinct entities.  A view made from
    a list of nodes and a list of relationships has as order the number
    of different nodes, at most the length of the list and equal to it
    when no node is repeated, and as size, which is also its [len], the
    number of different relationships. *)
Theorem GraphView_counts_distinct
    (ns : list object) (rs : list relationship) :
  order (__init__ ns rs) = base.size (node_set (__init__ ns rs))
  /\ (order (__init__ ns rs) <= length ns)%nat
  /\ (NoDup ns -> order (__init__ ns rs) = length ns)
  /\ size (__init__ ns rs) = base.size (relationship_set (__init__ ns rs))
  /\ __len__ (__init__ ns rs) = size (__init__ ns rs)
  /\ (size (__init__ ns rs) <= length rs)%nat
  /\ (NoDup rs -> size (__init__ ns rs) = length rs).
Proof.
  rewrite node_set_init, relationship_set_init, order_init, size_init.
  split; [done |]. split; [apply size_frozenset_le |].
  split; [apply size_list_to_set |].
  split; [done |]. split; [done |].
  split; [apply size_frozenset_le | apply size_list_to_set].
Qed.

(** X15: [|] is union.  The nodes of [A | B] are the nodes of A and
    those of B, and likewise the relationships; so, for [==] on views,
    [A | B] equals [B | A], grouping does not matter, and [A | A] equals
    A. *)
Theorem or_is_union A B C :
  node_set (__or__ A B) = node_set A ∪ node_set B
  /\ relationship_set (__or__ A B) = relationship_set A ∪ relationship_set B
  /\ __eq__ (__or__ A B) (__or__ B A) = true
  /\ __eq__ (__or__ (__or__ A B) C) (__or__ A (__or__ B C)) = true
  /\ __eq__ (__or__ A A) A = true.
Proof.
  split; [apply node_set_or |]. split; [apply relationship_set_or |].
  rewrite !GraphView_eq_spec, !node_set_or, !relationship_set_or.
  repeat split.
  - apply union_comm_L; apply _.
  - apply union_comm_L; apply _.
  - symmetry. apply union_assoc_L; apply _.
  - symmetry. apply union_assoc_L; apply _.
  - apply union_idemp_L; apply _.
  - apply union_idemp_L; apply _.
Qed.

(** X16: [&] is intersection, of nodes and of relationships apart.  A
    relationship is in [A & B] when it is in both, whether or not its
    endpoints are among the common nodes: for a relationship from a to a
    different b, the view of a, b and the relationship met with the view
    of a alone and the relationship keeps the relationship and not its
    endpoint b. *)
Theorem and_is_intersection A B :
  node_set (__and__ A B) = node_set A ∩ node_set B
  /\ relationship_set (__and__ A B)
     = relationship_set A ∩ relationship_set B
  /\ __eq__ (__and__ A B) (__and__ B A) = true
  /\ __eq__ (__and__ A A) A = true
  /\ (forall (r : relationship) (a b : object),
        endpoints r = [a; b] ->
        a <> b ->
        r ∈ relationship_set (__and__ (__init__ [a; b] [r]) (__init__ [a] [r]))
        /\ (b ∉ node_set (__and__ (__init__ [a; b] [r]) (__init__ [a] [r])))
        /\ ~ induced (__and__ (__init__ [a; b] [r]) (__init__ [a] [r]))).
Proof.
  split; [apply node_set_and |]. split; [apply relationship_set_and |].
  rewrite !GraphView_eq_spec, !node_set_and, !relationship_set_and.
  split; [split; apply intersection_comm_L; apply _ |].
  split; [split; apply intersection_idemp_L; apply _ |].
  intros r a b Hends Hne.
  assert (r ∈ relationship_set
                (__and__ (__init__ [a; b] [r]) (__init__ [a] [r]))) as Hr.
  { rewrite relationship_set_and, !relationship_set_init.
    unfold frozenset. simpl. set_unfold. tauto. }
  assert (b ∉ node_set (__and__ (__init__ [a; b] [r]) (__init__ [a] [r])))
    as Hb.
  { rewrite node_set_and, !node_set_init.
    unfold frozenset. simpl. set_unfold. intros [_ [-> | []]]. done. }
  split; [done | split; [done |]].
  intros Hinduced. apply Hb, (Hinduced r b Hr).
  rewrite Hends. set_unfold. tauto.
Qed.

(** X17: [-] and [^] never leave a relationship dangling.  In [A - B]
    and in [A ^ B] every endpoint of every relationship of the result is
    a node of the result, whatever A and B are, even when a relationship
    dangles in A or in B. *)
Theorem sub_and_xor_are_induced A B :
  induced (__sub__ A B) /\ induced (__xor__ A B).
Proof.
  split; intros r n Hr Hn.
  - apply elem_of_node_set_sub. right. by exists r.
  - apply elem_of_node_set_xor. right. right. by exists r.
Qed.

(** X18: [|] keeps views free of dangling relationships: when every
    endpoint of every relationship of A is a node of A, and likewise for
    B, the same holds of [A | B]. *)
Theorem or_keeps_induced A B :
  induced A -> induced B -> induced (__or__ A B).
Proof.
  intros HA HB r n. rewrite relationship_set_or, node_set_or, !elem_of_union.
  intros [Hr | Hr] Hn; [left; by eapply HA | right; by eapply HB].
Qed.

(** X19: [A ^ B] is [(A - B) | (B - A)], and is [B ^ A], for [==] on
    views: the symmetric difference has the nodes and the relationships
    of the two differences put together. *)
Theorem xor_is_union_of_differences A B :
  __eq__ (__xor__ A B) (__or__ (__sub__ A B) (__sub__ B A)) = true
  /\ __eq__ (__xor__ A B) (__xor__ B A) = true.
Proof.
  rewrite !GraphView_eq_spec.
  assert (forall X Y : GraphView.t,
            relationship_set (__xor__ X Y)
            = relationship_set (__sub__ X Y) ∪ relationship_set (__sub__ Y X))
    as Hrels.
  { intros X Y. by rewrite relationship_set_xor, !relationship_set_sub. }
  assert (forall X Y : GraphView.t,
            node_set (__xor__ X Y)
            = node_set (__sub__ X Y) ∪ node_set (__sub__ Y X)) as Hnodes.
  { intros X Y. apply set_eq. intros n.
    rewrite elem_of_union, elem_of_node_set_xor, !elem_of_node_set_sub.
    rewrite Hrels. split.
    - intros [? | [? | (r & [Hr | Hr]%elem_of_union & Hn)]]; eauto.
    - intros [[? | (r & Hr & Hn)] | [? | (r & Hr & Hn)]]; eauto.
      + right. right. exists r. split; [| done]. apply elem_of_union. auto.
      + right. right. exists r. split; [| done]. apply elem_of_union. auto. }
  rewrite node_set_or, relationship_set_or, !Hnodes, !Hrels.
  split; [done |].
  split; apply union_comm_L; apply _.
Qed.

(** X20: a view less itself is empty.  [A - A] and [A ^ A] have no node
    and no relationship, order 0 and size 0, and are false as
    conditions. *)
Theorem sub_self_is_empty A :
  node_set (__sub__ A A) = ∅
  /\ relationship_set (__sub__ A A) = ∅
  /\ order (__sub__ A A) = 0%nat
  /\ __bool__ (__sub__ A A) = false
  /\ node_set (__xor__ A A) = ∅
  /\ relationship_set (__xor__ A A) = ∅
  /\ order (__xor__ A A) = 0%nat
  /\ __bool__ (__xor__ A A) = false.
Proof.
  assert (relationship_set (__sub__ A A) = ∅) as Hrs.
  { rewrite relationship_set_sub. apply set_eq. intros r.
    rewrite elem_of_difference, elem_of_empty. tauto. }
  assert (relationship_set (__xor__ A A) = ∅) as Hrx.
  { rewrite relationship_set_xor. apply set_eq. intros r.
    rewrite elem_of_union, !elem_of_difference, elem_of_empty. tauto. }
  assert (node_set (__sub__ A A) = ∅) as Hns.
  { apply set_eq. intros n. rewrite elem_of_node_set_sub, Hrs, elem_of_empty.
    split; [| done]. intros [[? ?] | (r & []%elem_of_empty & _)]. done. }
  assert (node_set (__xor__ A A) = ∅) as Hnx.
  { apply set_eq. intros n. rewrite elem_of_node_set_xor, Hrx, elem_of_empty.
    split; [| done].
    intros [[? ?] | [[? ?] | (r & []%elem_of_empty & _)]]; done. }
  assert (forall V : GraphView.t,
            (exists ns rs, V = __init__ ns rs) ->
            node_set V = ∅ -> relationship_set V = ∅ ->
            order V = 0%nat /\ __bool__ V = false) as Hempty.
  { intros V (ns & rs & ->). rewrite node_set_init, relationship_set_init.
    intros Hn Hr. unfold __bool__, __init__. simpl.
    unfold EntitySetView.__len__, iter. simpl.
    by rewrite Hn, Hr, elements_empty. }
  destruct (Hempty (__sub__ A A)) as [? ?]; [by eexists _, _ | done | done |].
  destruct (Hempty (__xor__ A A)) as [? ?]; [by eexists _, _ | done | done |].
  done.
Qed.

(** X21: a view is true as a condition exactly when it has a
    relationship.  For a view made from nodes and relationships,
    [__bool__] holds when and only when the list of relationships is not
    empty, whatever the nodes; [__len__] is then positive, and iterating
    yields each relationship once. *)
Theorem bool_is_having_a_relationship
    (ns : list object) (rs : list relationship) :
  (__bool__ (__init__ ns rs) = true <-> rs <> [])
  /\ (__bool__ (__init__ ns rs) = true <-> (0 < __len__ (__init__ ns rs))%nat)
  /\ (forall r, r ∈ __iter__ (__init__ ns rs) <-> r ∈ rs)
  /\ NoDup (__iter__ (__init__ ns rs)).
Proof.
  assert (__bool__ (__init__ ns rs) = true
          <-> (0 < __len__ (__init__ ns rs))%nat) as Hlen.
  { unfold __bool__, __len__.
    destruct (EntitySetView.__len__ (relationships (__init__ ns rs)));
      simpl; split; (done || lia). }
  assert (forall r, r ∈ __iter__ (__init__ ns rs) <-> r ∈ rs) as Hiter.
  { intros r. unfold __iter__. simpl.
    by rewrite elem_of_iter, elem_of_frozenset. }
  split; [| split; [done | split; [done |]]];
    [| unfold __iter__, iter; simpl; apply NoDup_elements].
  rewrite Hlen. unfold __len__, EntitySetView.__len__.
  change (EntitySetView._entities (relationships (__init__ ns rs)))
    with (__iter__ (__init__ ns rs)).
  destruct rs as [| r rs].
  - split; [| done]. intros Hpos.
    destruct (__iter__ (__init__ ns [])) as [| r l];
      [simpl in Hpos; lia |].
    exfalso. apply (proj1 (elem_of_nil r)), Hiter. by left.
  - split; [done |]. intros _.
    assert (r ∈ __iter__ (__init__ ns (r :: rs))) as Hr
      by (apply Hiter; by left).
    destruct (__iter__ (__init__ ns (r :: rs)));
      [by apply elem_of_nil in Hr | simpl; lia].
Qed.

(** X22: [types] collects the types of the relationships, None
    included for a relationship without a type, and goes along with
    [|]: the types of [A | B] are those of A and those of B. *)
Theorem types_of_relationships A B (ty : object) :
  (ty ∈ types A <-> exists r, r ∈ relationship_set A /\ type_ r = ty)
  /\ types (__or__ A B) = types A ∪ types B.
Proof.
  assert (forall V (x : object),
            x ∈ types V <-> exists r, r ∈ relationship_set V /\ type_ r = x)
    as Htypes.
  { intros V x. unfold types, relationship_set.
    rewrite elem_of_frozenset, list_elem_of_fmap. split.
    - intros (r & -> & Hr). exists r. by rewrite elem_of_frozenset.
    - intros (r & Hr%elem_of_frozenset & <-). by exists r. }
  split; [apply Htypes |].
  apply set_eq. intros x.
  rewrite elem_of_union, !Htypes, relationship_set_or. split.
  - intros (r & [Hr | Hr]%elem_of_union & <-); [left | right]; by exists r.
  - intros [(r & Hr & <-) | (r & Hr & <-)]; exists r;
      (split; [apply elem_of_union; auto | done]).
Qed.

(** X23: [labels] needs every node to be a Node.  Reading [labels]
    raises AttributeError exactly when the view has among its nodes
    something that is not a Node, such as the None of a relationship
    without endpoints; otherwise it is the set of the labels that some
    node of the view carries. *)
Theorem labels_of_nodes A :
  (labels A = None
   <-> exists member, member ∈ node_set A /\ labels_of member = None)
  /\ (forall found,
        labels A = Some found ->
        forall l,
          l ∈ found
          <-> exists n, O_Node n ∈ node_set A /\ l ∈ node_labels n).
Proof.
  unfold labels, node_set. split.
  - destruct (mapM labels_of (EntitySetView.__iter__ (nodes A))) eqn:Hm.
    + split; [done |]. intros (member & Hin & Hnone).
      apply elem_of_frozenset, list_elem_of_lookup in Hin as [i Hi].
      apply mapM_Some in Hm.
      destruct (Forall2_lookup_l _ _ _ _ _ Hm Hi) as (? & _ & Hsome).
      congruence.
    + split; [| done]. intros _.
      apply mapM_None, Exists_exists in Hm as (member & Hin & Hnone).
      exists member. by rewrite elem_of_frozenset.
  - intros found.
    destruct (mapM labels_of (EntitySetView.__iter__ (nodes A)))
      as [sets |] eqn:Hm; [| discriminate].
    intros [= <-] l. apply mapM_Some in Hm.
    rewrite elem_of_union_list. split.
    + intros (X & HX & Hl).
      apply list_elem_of_lookup in HX as [i HX].
      destruct (Forall2_lookup_r _ _ _ _ _ Hm HX) as (member & Hi & Hlab).
      destruct member as [| n |]; try discriminate.
      injection Hlab as <-. exists n. split; [| done].
      apply elem_of_frozenset, list_elem_of_lookup. by exists i.
    + intros (n & Hn & Hl).
      apply elem_of_frozenset, list_elem_of_lookup in Hn as [i Hi].
      destruct (Forall2_lookup_l _ _ _ _ _ Hm Hi) as (X & HX & Hlab).
      injection Hlab as <-. exists (node_labels n). split; [| done].
      apply list_elem_of_lookup. by exists i.
Qed.
End GraphViewProperties.

(** ** Node, Relationship and their properties *)
Section EntityProperties.
Context {RT : Runtime}.
Import GraphView.

Lemma assign_each_all_OK (entries : list (string * pyval)) :
  Forall (fun kv => snd kv = VNone \/ exists c, cast_property (snd kv) = OK c)
    entries ->
  forall self,
    exists after,
      for_each entries (fun kv => PropertySet.__setitem__ (fst kv) (snd kv))
        self
      = (OK tt, after).
Proof.
  induction 1 as [| [k v] entries Hv _ IH]; intros self; simpl;
    [by eexists |].
  unfold bind. simpl in Hv.
  destruct (absent_marker_dec v) as [-> | Hvalue].
  - rewrite setitem_None. apply IH.
  - destruct Hv as [? | [c Hc]]; [done |].
    rewrite setitem_value, Hc by done. apply IH.
Qed.

Lemma In_new (properties : list (string * pyval)) (kv : string * pyval) :
  In kv (dict.new properties []) -> In kv properties.
Proof.
  destruct kv as [k v]. intros Hin.
  apply (get_In _ _ _ (well_formed_new properties [])) in Hin.
  rewrite get_new, app_nil_r in Hin.
  by apply get_Some_In, in_rev in Hin.
Qed.

Lemma elements_frozenset_singleton `{Countable T} (x : T) :
  iter (frozenset [x]) = [x].
Proof.
  unfold iter, frozenset. simpl.
  rewrite (right_id_L ∅ (∪)). apply elements_singleton.
Qed.

(** X24: the positional arguments of a Relationship, from two on: the
    first is the start, the last is the end, and with three or more the
    second is the type and is no endpoint, the others being the chain of
    endpoints in order; with exactly two there is no type. *)
Theorem Relationship_by_arity
    (id : positive) (first final : object) (middle : list object)
    (properties : list (string * pyval))
    (r : relationship) (props : PropertySet.t) (view : GraphView.t) :
  Relationship.__init__ id (first :: middle ++ [final]) properties
  = OK (r, props, view) ->
  rel_id r = id
  /\ endpoints r = first :: tail middle ++ [final]
  /\ type_ r = hd O_None middle
  /\ Relationship.start r = OK first
  /\ Relationship.end_ r = OK final.
Proof.
  unfold Relationship.__init__.
  destruct (PropertyContainer.__init__ properties) as [ps | e];
    [| discriminate].
  destruct middle as [| ty [| x rest]]; simpl; intros [= <- <- <-];
    unfold Relationship.start, Relationship.end_; simpl;
    repeat split; try done.
  by rewrite app_comm_cons, last_snoc.
Qed.

(** X25: [start] and [end] never fail on a constructed Relationship:
    whatever the number of positional arguments, the relationship has at
    least two endpoints, so neither index is out of range. *)
Theorem start_and_end_never_fail
    (id : positive) (args : list object) (properties : list (string * pyval))
    (r : relationship) (props : PropertySet.t) (view : GraphView.t) :
  Relationship.__init__ id args properties = OK (r, props, view) ->
  (2 <= length (endpoints r))%nat
  /\ exists a b, Relationship.start r = OK a /\ Relationship.end_ r = OK b.
Proof.
  unfold Relationship.__init__.
  destruct (PropertyContainer.__init__ properties) as [ps | e];
    [| discriminate].
  assert (forall self : relationship,
            (2 <= length (endpoints self))%nat ->
            exists a b,
              Relationship.start self = OK a /\ Relationship.end_ self = OK b)
    as Hboth.
  { intros [i [| a l] ty]; unfold Relationship.start, Relationship.end_;
      simpl; intros Hl; [lia |].
    destruct (last (a :: l)) as [b |] eqn:Hb; [by exists a, b |].
    by apply last_None in Hb. }
  destruct args as [| arg0 [| arg1 [| arg2 rest]]]; intros [= <- <- <-];
    (split; [simpl; lia | apply Hboth; simpl; lia]).
Qed.

(** X26: a Relationship as a graph view.  The view of a constructed
    relationship holds the relationship alone, has size 1, is true as a
    condition, gives for [len] and for iteration what the methods of
    Relationship give, has its endpoints as nodes and so no dangling
    relationship, and has as order the number of different endpoints: 1
    for a relationship from a node to itself, 2 between two nodes. *)
Theorem Relationship_is_a_view_of_itself
    (id : positive) (args : list object) (properties : list (string * pyval))
    (r : relationship) (props : PropertySet.t) (view : GraphView.t) :
  Relationship.__init__ id args properties = OK (r, props, view) ->
  relationship_set view = {[r]}
  /\ node_set view = frozenset (endpoints r)
  /\ induced view
  /\ size view = 1%nat
  /\ __len__ view = Relationship.__len__ r
  /\ __iter__ view = Relationship.__iter__ r
  /\ __bool__ view = true
  /\ types view = {[type_ r]}
  /\ (forall a, endpoints r = [a; a] -> order view = 1%nat)
  /\ (forall a b, a <> b -> endpoints r = [a; b] -> order view = 2%nat).
Proof.
  unfold Relationship.__init__.
  destruct (PropertyContainer.__init__ properties) as [ps | e];
    [| discriminate].
  assert (forall self : relationship,
            let view := __init__ (endpoints self) [self] in
            relationship_set view = {[self]}
            /\ node_set view = frozenset (endpoints self)
            /\ induced view
            /\ size view = 1%nat
            /\ __len__ view = Relationship.__len__ self
            /\ __iter__ view = Relationship.__iter__ self
            /\ __bool__ view = true
            /\ types view = {[type_ self]}
            /\ (forall a, endpoints self = [a; a] -> order view = 1%nat)
            /\ (forall a b, a <> b -> endpoints self = [a; b] ->
                            order view = 2%nat)) as Hview.
  { intros self view0. subst view0.
    assert (relationship_set (__init__ (endpoints self) [self]) = {[self]})
      as Hrels.
    { rewrite relationship_set_init. unfold frozenset. simpl.
      apply (right_id_L ∅ (∪)). }
    split; [done |]. split; [apply node_set_init |].
    split.
    { intros r0 n. rewrite Hrels, node_set_init, elem_of_singleton.
      intros -> Hn. by apply elem_of_frozenset. }
    assert (forall a, endpoints self = [a; a] ->
                      order (__init__ (endpoints self) [self]) = 1%nat)
      as Hloop.
    { intros a ->. rewrite order_init.
      assert (frozenset [a; a] = ({[a]} : gset object)) as ->.
      { apply set_eq. intros x. unfold frozenset. simpl. set_unfold. tauto. }
      apply size_singleton. }
    assert (forall a b, a <> b -> endpoints self = [a; b] ->
                        order (__init__ (endpoints self) [self]) = 2%nat)
      as Hpair.
    { intros a b Hne ->. rewrite order_init.
      assert (frozenset [a; b] = ({[a]} ∪ {[b]} : gset object)) as ->.
      { apply set_eq. intros x. unfold frozenset. simpl. set_unfold. tauto. }
      rewrite size_union, !size_singleton; [done |].
      apply disjoint_singleton_l. by rewrite elem_of_singleton. }
    unfold __len__, __iter__, __bool__, types, EntitySetView.__len__.
    simpl. rewrite elements_frozenset_singleton. simpl.
    split; [done |]. split; [done |]. split; [done |]. split; [done |].
    split; [unfold frozenset; simpl; apply (right_id_L ∅ (∪)) |].
    split; [exact Hloop | exact Hpair]. }
  destruct args as [| arg0 [| arg1 [| arg2 rest]]]; intros [= <- <- <-];
    apply Hview.
Qed.

(** X27: a Node as a graph view.  The view of a constructed node holds
    the node alone and no relationship: order 1, size 0, false as a
    condition, with [len] and iteration as the methods of Node give
    them; the labels of the node are the labels passed, each once, and
    they are the labels of the view; and the stored properties are
    values that Neo4j supports. *)
Theorem Node_is_a_view_of_itself
    (id : positive) (labels : list string) (properties : list (string * pyval))
    (n : node) (props : PropertySet.t) (view : GraphView.t) :
  Node.__init__ id labels properties = OK (n, props, view) ->
  node_id n = id
  /\ (forall l, l ∈ node_labels n <-> l ∈ labels)
  /\ node_set view = {[O_Node n]}
  /\ relationship_set view = ∅
  /\ order view = 1%nat
  /\ size view = 0%nat
  /\ __bool__ view = false
  /\ __len__ view = Node.__len__ n
  /\ __iter__ view = Node.__iter__ n
  /\ GraphView.labels view = Some (node_labels n)
  /\ supported_store props.
Proof.
  unfold Node.__init__, PropertyContainer.__init__.
  pose proof (supported_update [] (Some properties) [] supported_empty)
    as Hprops.
  unfold PropertySet.__init__.
  destruct (PropertySet.update (Some properties) [] [])
    as [[[] | e] after]; [| discriminate].
  intros [= <- <- <-].
  set (self := {| node_id := id; node_labels := list_to_set labels |}).
  assert (frozenset [O_Node self] = ({[O_Node self]} : gset object)) as Hone.
  { apply set_eq. intros x. unfold frozenset. simpl. set_unfold. tauto. }
  assert (size (__init__ [O_Node self] []) = 0%nat) as Hsize.
  { rewrite size_init. apply size_empty. }
  split; [done |]. split; [intros l; apply elem_of_list_to_set |].
  split; [by rewrite node_set_init |].
  split; [by rewrite relationship_set_init |].
  split; [by rewrite order_init, Hone, size_singleton |].
  split; [done |].
  split; [change (negb (Nat.eqb (size (__init__ [O_Node self] [])) 0) = false);
          by rewrite Hsize |].
  split; [exact Hsize |].
  split; [exact (elements_empty (C := gset relationship)) |].
  split; [| done].
  unfold GraphView.labels.
  change (EntitySetView.__iter__ (nodes (__init__ [O_Node self] [])))
    with (iter (frozenset [O_Node self])).
  rewrite elements_frozenset_singleton. simpl.
  f_equal. apply (right_id_L ∅ (∪)).
Qed.

(** X28: which error a constructor raises.  The keyword properties are
    a dict as Python binds it to the double-starred parameter: each name
    once, and none named self.  A [Node] or [Relationship] constructor
    that raises, raises the error that the caster gives for the first
    property, in the order of the dict, whose value is not None and does
    not cast, every property before it being None or one that casts; and
    when every value is None or casts the constructor returns, with the
    identity it was given. *)
Theorem constructors_raise_what_the_caster_raises
    (properties : list (string * pyval)) :
  NoDup (map fst properties) ->
  "self"%string ∉ map fst properties ->
  (forall e,
     (exists id labels, Node.__init__ id labels properties = Raise e)
     \/ (exists id args, Relationship.__init__ id args properties = Raise e) ->
     exists passed failing pending,
       properties = passed ++ failing :: pending
       /\ Forall (fun kv => snd kv = VNone
                            \/ exists c, cast_property (snd kv) = OK c)
            passed
       /\ snd failing <> VNone
       /\ cast_property (snd failing) = Raise e)
  /\ (Forall (fun kv => snd kv = VNone
                        \/ exists c, cast_property (snd kv) = OK c)
        properties ->
      (forall id labels,
         exists n props view,
           Node.__init__ id labels properties = OK (n, props, view)
           /\ node_id n = id)
      /\ (forall id args,
            exists r props view,
              Relationship.__init__ id args properties = OK (r, props, view)
              /\ rel_id r = id)).
Proof.
  intros Hkeys _.
  assert (forall e,
            PropertyContainer.__init__ properties = Raise e ->
            exists passed failing pending,
              properties = passed ++ failing :: pending
              /\ Forall (fun kv => snd kv = VNone
                                   \/ exists c, cast_property (snd kv) = OK c)
                   passed
              /\ snd failing <> VNone
              /\ cast_property (snd failing) = Raise e) as Hraise.
  { intros e. unfold PropertyContainer.__init__, PropertySet.__init__,
      PropertySet.update, dict.items. simpl.
    rewrite new_items by done.
    destruct (for_each properties
                (fun kv => PropertySet.__setitem__ (fst kv) (snd kv)) [])
      as [[[] | e'] after] eqn:Hrun; [discriminate |].
    intros [= ->].
    destruct (assign_each_Raise _ _ _ _ Hrun)
      as (passed & failing & pending & Hsplit & Hvalue & Hfail & Hpassed).
    exists passed, failing, pending.
    split; [done |]. split; [by eapply assign_each_OK_castable | done]. }
  split.
  - intros e [(id & labels & Hnode) | (id & args & Hrel)]; apply Hraise.
    + unfold Node.__init__ in Hnode.
      destruct (PropertyContainer.__init__ properties); congruence.
    + unfold Relationship.__init__ in Hrel.
      destruct (PropertyContainer.__init__ properties); congruence.
  - intros Hall.
    assert (exists props, PropertyContainer.__init__ properties = OK props)
      as [props Hprops].
    { unfold PropertyContainer.__init__, PropertySet.__init__,
        PropertySet.update, dict.items. simpl.
      rewrite new_items by done.
      destruct (assign_each_all_OK properties Hall ([] : PropertySet.t))
        as [after Hrun].
      rewrite Hrun. by eexists. }
    split.
    + intros id labels. unfold Node.__init__. rewrite Hprops.
      by eexists _, _, _.
    + intros id args. unfold Relationship.__init__. rewrite Hprops.
      destruct args as [| arg0 [| arg1 [| arg2 rest]]]; by eexists _, _, _.
Qed.
End EntityProperties.

Section EntityPropertiesExamples.
Import GraphView.

Lemma views_of_examples_induced :
  induced alice_knows_bob /\ induced bob_alone.
Proof.
  split; intros r n.
  - unfold alice_knows_bob. rewrite relationship_set_init, node_set_init.
    unfold frozenset. simpl. set_unfold. intros [-> | []] Hn.
    simpl in Hn. set_unfold in Hn. tauto.
  - unfold bob_alone. rewrite relationship_set_init.
    unfold frozenset. simpl. by intros []%elem_of_empty.
Qed.

Lemma or_keeps_induced_witness :
  induced alice_knows_bob
  /\ induced bob_alone
  /\ induced (__or__ alice_knows_bob bob_alone).
Proof.
  split; [apply views_of_examples_induced |].
  split; [apply views_of_examples_induced |].
  apply or_keeps_induced; apply views_of_examples_induced.
Defined.

Lemma Relationship_by_arity_witness :
  Relationship.__init__ (RT := Python3.runtime) 3
    (alice :: [O_Str "KNOWS"] ++ [bob]) []
  = OK (knows, [], alice_knows_bob)
  /\ endpoints knows = [alice; bob]
  /\ type_ knows = O_Str "KNOWS"
  /\ Relationship.start knows = OK alice
  /\ Relationship.end_ knows = OK bob.
Proof.
  split; [reflexivity |].
  exact (proj2 (Relationship_by_arity (RT := Python3.runtime) 3 alice bob
                  [O_Str "KNOWS"] [] knows [] alice_knows_bob eq_refl)).
Defined.

Lemma start_and_end_never_fail_witness :
  Relationship.__init__ (RT := Python3.runtime) 4 [O_Str "KNOWS"] []
  = OK (untyped, [], __init__ [O_None; O_None] [untyped])
  /\ (2 <= length (endpoints untyped))%nat
  /\ exists a b,
       Relationship.start untyped = OK a /\ Relationship.end_ untyped = OK b.
Proof.
  split; [reflexivity |].
  exact (start_and_end_never_fail (RT := Python3.runtime) 4 [O_Str "KNOWS"]
           [] untyped [] (__init__ [O_None; O_None] [untyped]) eq_refl).
Defined.

Lemma Relationship_is_a_view_of_itself_witness :
  Relationship.__init__ (RT := Python3.runtime) 3
    [alice; O_Str "KNOWS"; bob] [("since"%string, VInt 1999)]
  = OK (knows, [("since"%string, VInt 1999)], alice_knows_bob)
  /\ relationship_set alice_knows_bob = {[knows]}
  /\ __bool__ alice_knows_bob = true
  /\ order alice_knows_bob = 2%nat.
Proof.
  split; [reflexivity |].
  destruct (Relationship_is_a_view_of_itself (RT := Python3.runtime) 3
              [alice; O_Str "KNOWS"; bob] [("since"%string, VInt 1999)]
              knows [("since"%string, VInt 1999)] alice_knows_bob eq_refl)
    as (Hrels & _ & _ & _ & _ & _ & Hbool & _ & _ & Hpair).
  split; [exact Hrels |]. split; [exact Hbool |].
  apply (Hpair alice bob); [discriminate | reflexivity].
Defined.

Lemma Node_is_a_view_of_itself_witness :
  Node.__init__ (RT := Python3.runtime) 6 ["Person"; "Person"]%string
    [("name"%string, VStr "Carol")]
  = OK (carol, [("name"%string, VStr "Carol")], __init__ [O_Node carol] [])
  /\ order (__init__ [O_Node carol] []) = 1%nat
  /\ __bool__ (__init__ [O_Node carol] []) = false
  /\ labels (__init__ [O_Node carol] []) = Some (node_labels carol).
Proof.
  split; [reflexivity |].
  destruct (Node_is_a_view_of_itself (RT := Python3.runtime) 6
              ["Person"; "Person"]%string [("name"%string, VStr "Carol")]
              carol [("name"%string, VStr "Carol")]
              (__init__ [O_Node carol] []) eq_refl)
    as (_ & _ & _ & _ & Horder & _ & Hbool & _ & _ & Hlabels & _).
  split; [exact Horder |]. split; [exact Hbool | exact Hlabels].
Defined.
Lemma constructors_raise_what_the_caster_raises_witness :
  NoDup (map fst [("name"%string, VStr "Alice"); ("born"%string, VNone);
                  ("age"%string, VObject "object");
                  ("odd"%string, VInt (2 ^ 63))])
  /\ ("self"%string
      ∉ map fst [("name"%string, VStr "Alice"); ("born"%string, VNone);
                 ("age"%string, VObject "object");
                 ("odd"%string, VInt (2 ^ 63))])
  /\ Node.__init__ (RT := Python3.runtime) 1 ["Person"%string]
       [("name"%string, VStr "Alice"); ("born"%string, VNone);
        ("age"%string, VObject "object"); ("odd"%string, VInt (2 ^ 63))]
     = Raise InvalidPropertyType
  /\ exists passed failing pending,
       [("name"%string, VStr "Alice"); ("born"%string, VNone);
        ("age"%string, VObject "object"); ("odd"%string, VInt (2 ^ 63))]
       = passed ++ failing :: pending
       /\ Forall (fun kv =>
                    snd kv = VNone
                    \/ exists c,
                         cast_property (RT := Python3.runtime) (snd kv)
                         = OK c)
            passed
       /\ snd failing <> VNone
       /\ cast_property (RT := Python3.runtime) (snd failing)
          = Raise InvalidPropertyType.
Proof.
  assert (NoDup (map fst [("name"%string, VStr "Alice");
                          ("born"%string, VNone);
                          ("age"%string, VObject "object");
                          ("odd"%string, VInt (2 ^ 63))])) as Hkeys.
  { simpl.
    repeat (apply NoDup_cons; split;
            [rewrite ?elem_of_cons, elem_of_nil;
             intros H; decompose [or] H; congruence |]).
    apply NoDup_nil_2. }
  assert ("self"%string
          ∉ map fst [("name"%string, VStr "Alice"); ("born"%string, VNone);
                     ("age"%string, VObject "object");
                     ("odd"%string, VInt (2 ^ 63))]) as Hself.
  { simpl. rewrite ?elem_of_cons, elem_of_nil.
    intros H; decompose [or] H; congruence. }
  split; [exact Hkeys |]. split; [exact Hself |]. split; [reflexivity |].
  apply (proj1 (constructors_raise_what_the_caster_raises
                  (RT := Python3.runtime) _ Hkeys Hself)).
  left. exists 1%positive, ["Person"%string]. reflexivity.
Defined.
End EntityPropertiesExamples.
